(** * Browser-use automation API: task store, queue worker and webhook delivery

    A shallow embedding of [api/config.py], [api/database.py],
    [api/models.py], [api/task_queue.py] and [api/server.py], and the
    properties of the task lifecycle that hold on it.

    - The SQLite table [tasks] is a finite map from [task_id], its primary
      key, to rows. A statement is applied at once and as a whole. The
      methods of [TaskDatabase] raise only where SQLite refuses the
      statement, which is the [INSERT] of a second row under one key.
    - [datetime] values are integers, seconds on the clock of the process;
      [isoformat] and [fromisoformat] are inverse to each other and are left
      out.
    - Python exceptions are values of [exn]; a call either returns or raises
      ([outcome]), and what it has written until then is kept in both cases.
    - The browser agent, the webhook endpoint, the Chrome probe, [uuid4()]
      and the [json] module are the environment: what they do is a parameter
      of the definitions that use them.
    - The worker is a coroutine. It is followed from one [await] at which
      other code can run to the next: the wait for the queue and the wait
      for the agent. [stop] cancels it at one of these two.
    - Strings are byte strings, so that [len] is [String.length] on ASCII
      text. [logger] calls, [queue.task_done()] and the API key check of the
      routes are left out. *)

From Stdlib Require Import ZArith String List Lia.
From stdpp Require Import base gmap strings pretty list sorting.

Open Scope Z_scope.

(** ** Exceptions and outcomes *)

Inductive exn : Type :=
| ValidationError                      (* pydantic *)
| HTTPException (status_code : Z)      (* fastapi *)
| IntegrityError                       (* sqlite3: duplicate primary key *)
| TimeoutError                         (* asyncio.TimeoutError *)
| CancelledError                       (* asyncio.CancelledError: a BaseException since
                                          Python 3.8, not caught by [except Exception] *)
| Exception (class_name msg : string). (* any other subclass of Exception; str(e) = msg *)

#[global] Instance exn_eq_dec : EqDecision exn.
Proof. solve_decision. Defined.

Inductive outcome (A : Type) : Type :=
| Ok (a : A)
| Raise (e : exn).
Arguments Ok {A} a.
Arguments Raise {A} e.

(** [str(e)] *)
Definition exn_str (e : exn) : string :=
  match e with
  | Exception _ msg => msg
  | _ => ""
  end.

(** Truthiness of a Python [str] and of an [Optional[str]]. *)
Definition truthy (s : string) : bool :=
  match s with
  | EmptyString => false
  | _ => true
  end.

Definition truthy_opt (o : option string) : bool :=
  match o with
  | Some s => truthy s
  | None => false
  end.

Definition datetime : Type := Z.

(** ** api/config.py *)

Module Config.

(** The values read from the environment with [int(os.getenv(...))]. *)
Record config : Type := {
  MAX_QUEUE_SIZE : Z;
  DEFAULT_TASK_TIMEOUT : Z;
  WEBHOOK_RETRY_ATTEMPTS : Z;
  WEBHOOK_RETRY_DELAY : Z;
  WEBHOOK_TIMEOUT : Z
}.

(** The values taken when the environment variables are not set. *)
Definition defaults : config := {|
  MAX_QUEUE_SIZE := 100;
  DEFAULT_TASK_TIMEOUT := 300;
  WEBHOOK_RETRY_ATTEMPTS := 3;
  WEBHOOK_RETRY_DELAY := 2;
  WEBHOOK_TIMEOUT := 10
|}.

(** The two constants of the module. *)
Definition MIN_TASK_TIMEOUT : Z := 30.
Definition MAX_TASK_TIMEOUT : Z := 3600.

(** [API_SERVER_KEY = os.getenv("API_SERVER_KEY")], and the [ValueError] of
    the module when it is missing or empty; [env] is the value in the
    environment and [env_file] the path named in the message. *)
Definition load_API_SERVER_KEY (env_file : string) (env : option string) : outcome string :=
  let missing :=
    Raise (Exception "ValueError"
             ("API_SERVER_KEY not found in environment. Please add it to "
              +:+ env_file)) in
  match env with
  | Some key => if truthy key then Ok key else missing
  | None => missing
  end.

End Config.

(** ** api/auth.py *)

Module Auth.

(** [validate_api_key]: [api_key] is the header [X-API-Key], [None] when
    the request has none ([auto_error=False]). *)
Definition validate_api_key (API_SERVER_KEY : string) (api_key : option string)
    : outcome string :=
  match api_key with
  | None => Raise (HTTPException 401)
  | Some key =>
      if negb (String.eqb key API_SERVER_KEY) then Raise (HTTPException 401)
      else Ok key
  end.

End Auth.

(** ** api/database.py *)

Module Database.

(** A row of the table [tasks]. [callback_attempts] has [DEFAULT 0]. *)
Record Task : Type := {
  task_id : string;
  url : string;
  task_description : string;
  form_data : option string;
  callback_url : option string;
  timeout : Z;
  status : string;
  result : option string;
  error : option string;
  callback_attempts : Z;
  last_callback_error : option string;
  created_at : datetime;
  started_at : option datetime;
  completed_at : option datetime
}.

Abbreviation store := (gmap string Task).

(** A method of [TaskDatabase]: it returns or raises, and leaves a table. *)
Definition DB (A : Type) : Type := store → outcome A * store.

(** [UPDATE tasks SET status = 'failed', error = ..., completed_at = ?
     WHERE status IN ('queued', 'running')], on one row. *)
Definition incomplete (t : Task) : bool :=
  String.eqb (status t) "queued" || String.eqb (status t) "running".

Definition fail_if_incomplete (now : datetime) (t : Task) : Task :=
  if incomplete t then
    {| task_id := task_id t; url := url t; task_description := task_description t;
       form_data := form_data t; callback_url := callback_url t; timeout := timeout t;
       status := "failed";
       result := result t;
       error := Some "Server restarted during execution";
       callback_attempts := callback_attempts t;
       last_callback_error := last_callback_error t;
       created_at := created_at t; started_at := started_at t;
       completed_at := Some now |}
  else t.

Definition mark_incomplete_as_failed (now : datetime) : DB unit :=
  fun s => (Ok tt, fail_if_incomplete now <$> s).

(** What [create_task] returns: the dict with keys [task_id], [status],
    [created_at]. *)
Record created : Type := {
  c_task_id : string;
  c_status : string;
  c_created_at : datetime
}.

Section Create.
Context {json : Type} (json_dumps : json → string).

(** [INSERT INTO tasks (...) VALUES (?, ?, ?, ?, ?, ?, 'queued', ?)]: the
    columns not listed take their defaults; a second row with the same
    primary key is refused by SQLite. *)
Definition create_task (id url' description : string) (form : json)
    (callback : option string) (timeout' : Z) (now : datetime) : DB created :=
  fun s =>
    match s !! id with
    | Some _ => (Raise IntegrityError, s)
    | None =>
        (Ok {| c_task_id := id; c_status := "queued"; c_created_at := now |},
         <[id := {| task_id := id; url := url'; task_description := description;
                    form_data := Some (json_dumps form);
                    callback_url := callback; timeout := timeout';
                    status := "queued"; result := None; error := None;
                    callback_attempts := 0; last_callback_error := None;
                    created_at := now; started_at := None;
                    completed_at := None |}]> s)
    end.
End Create.

Definition get_task (id : string) : DB (option Task) :=
  fun s => (Ok (s !! id), s).

(** The [SET] list that [update_status] builds: [status] always, each other
    column only when its argument is given. *)
Definition set_status (st : string) (started completed : option datetime)
    (res err : option string) (t : Task) : Task :=
  {| task_id := task_id t; url := url t; task_description := task_description t;
     form_data := form_data t; callback_url := callback_url t; timeout := timeout t;
     status := st;
     result := match res with Some r => Some r | None => result t end;
     error := match err with Some e => Some e | None => error t end;
     callback_attempts := callback_attempts t;
     last_callback_error := last_callback_error t;
     created_at := created_at t;
     started_at := match started with Some d => Some d | None => started_at t end;
     completed_at := match completed with Some d => Some d | None => completed_at t end |}.

(** [UPDATE tasks SET ... WHERE task_id = ?]: no row matches an unknown id,
    and the statement is not an error then. *)
Definition update_status (id st : string) (started completed : option datetime)
    (res err : option string) : DB unit :=
  fun s => (Ok tt, alter (set_status st started completed res err) id s).

Definition set_callback_attempt (attempts : Z) (err : option string) (t : Task) : Task :=
  {| task_id := task_id t; url := url t; task_description := task_description t;
     form_data := form_data t; callback_url := callback_url t; timeout := timeout t;
     status := status t; result := result t; error := error t;
     callback_attempts := attempts;
     last_callback_error := err;
     created_at := created_at t; started_at := started_at t;
     completed_at := completed_at t |}.

Definition update_callback_attempt (id : string) (attempts : Z)
    (err : option string) : DB unit :=
  fun s => (Ok tt, alter (set_callback_attempt attempts err) id s).

(** The rows of the table, in the order in which the engine scans it. *)
Definition rows (s : store) : list Task := (map_to_list s).*2.

(** [ORDER BY created_at DESC]: rows created at the same time come in an
    order that the engine picks. *)
Definition newer_first (t1 t2 : Task) : Prop := created_at t2 ≤ created_at t1.

#[global] Instance newer_first_dec (t1 t2 : Task) : Decision (newer_first t1 t2).
Proof. unfold newer_first. apply _. Defined.

(** [LIMIT ? OFFSET ?]: a negative limit is no limit, a negative offset is
    none. *)
Definition limit_offset (limit offset : Z) (l : list Task) : list Task :=
  let l' := drop (Z.to_nat offset) l in
  if limit <? 0 then l' else take (Z.to_nat limit) l'.

(** [list_tasks]: the page and the number of all rows that pass the filter;
    a filter that is [None] or empty is none. *)
Definition list_tasks (filter_status : option string) (limit offset : Z)
    : DB (list Task * Z) :=
  fun s =>
    let selected :=
      match filter_status with
      | Some st => if truthy st then filter (λ t, status t = st) (rows s) else rows s
      | None => rows s
      end in
    (Ok (limit_offset limit offset (merge_sort newer_first selected),
         Z.of_nat (length selected)), s).

(** [DELETE FROM tasks WHERE task_id = ?], returning [rowcount > 0]. *)
Definition delete_task (id : string) : DB bool :=
  fun s => (Ok (bool_decide (is_Some (s !! id))), delete id s).

(** [init_database]: [initialize] creates the table and the indexes when
    they are missing and writes no row; then the reconciliation. *)
Definition init_database (now : datetime) : DB unit :=
  mark_incomplete_as_failed now.

End Database.

(** ** api/models.py *)

Module Models.

Section Request.
Context {json : Type}.
(** [HttpUrl]: parsing a string gives the normalised URL, or fails. *)
Context (http_url : string → option string).
(** The value of [default_factory=dict]. *)
Context (empty_dict : json).

(** The JSON body of [POST /tasks], before validation; [None] is an
    absent key. *)
Record body : Type := {
  b_url : option string;
  b_task_description : option string;
  b_form_data : option json;
  b_callback_url : option string;
  b_timeout : option Z
}.

Record TaskRequest : Type := {
  url : string;
  task_description : string;
  form_data : json;
  callback_url : option string;
  timeout : Z
}.

Definition valid_description (d : string) : bool :=
  (10 <=? Z.of_nat (String.length d)) && (Z.of_nat (String.length d) <=? 2000).

(** [Field(default=300, ge=30, le=3600)] *)
Definition valid_timeout (t : Z) : bool := (30 <=? t) && (t <=? 3600).

(** Building a [TaskRequest] from the body: every field is validated and
    any failure raises pydantic's [ValidationError]. *)
Definition validate (b : body) : outcome TaskRequest :=
  match b_url b ≫= http_url, b_task_description b with
  | Some u, Some d =>
      let t := default 300 (b_timeout b) in
      let cb := match b_callback_url b with
                | Some c => Some (http_url c)
                | None => None
                end in
      if valid_description d && valid_timeout t
         && match cb with Some None => false | _ => true end
      then Ok {| url := u; task_description := d;
                 form_data := default empty_dict (b_form_data b);
                 callback_url := cb ≫= id;
                 timeout := t |}
      else Raise ValidationError
  | _, _ => Raise ValidationError
  end.
End Request.

Record TaskResponse : Type := {
  r_task_id : string;
  r_status : string;
  r_queue_position : option Z;
  r_created_at : datetime
}.

Record TaskStatus : Type := {
  ts_task_id : string;
  ts_status : string;
  ts_url : option string;
  ts_task_description : option string;
  ts_result : option string;
  ts_error : option string;
  ts_created_at : datetime;
  ts_started_at : option datetime;
  ts_completed_at : option datetime
}.

Record TaskListResponse : Type := {
  l_tasks : list TaskStatus;
  l_total : Z;
  l_limit : Z;
  l_offset : Z
}.

Record CallbackPayload : Type := {
  p_task_id : string;
  p_status : string;
  p_result : option string;
  p_error : option string;
  p_completed_at : datetime
}.

End Models.

(** ** api/task_queue.py *)

Module TaskQueue.
Import Config Models Database.

(** What the process does to the outside, in order. *)
Inductive event : Type :=
| EvDequeue (id : string)                       (* the worker took [id] off the queue *)
| EvAgent (id description : string) (limit : Z) (* [agent.run()] started under [wait_for] *)
| EvPost (target : string) (payload : CallbackPayload) (* one webhook POST *)
| EvSleep (seconds : Z).                        (* [asyncio.sleep] between two POSTs *)

(** Where the coroutine [_worker] is suspended. *)
Inductive coroutine : Type :=
| AwaitQueue                                    (* in [wait_for(self.queue.get(), 1.0)] *)
| AwaitAgent (id : string) (task : Task)        (* in [wait_for(agent.run(), timeout)] *)
| Finished.                                     (* the loop has ended *)

(** The two module-level singletons [db] and [task_queue], the clock read
    by [datetime.utcnow()], and the events so far. *)
Record world : Type := {
  db : store;
  queue : list string;
  current_task_id : option string;
  running : bool;
  worker_task : option coroutine;
  clock : datetime;
  trace : list event
}.

Definition with_db (s : store) (w : world) : world :=
  {| db := s; queue := queue w; current_task_id := current_task_id w;
     running := running w; worker_task := worker_task w; clock := clock w;
     trace := trace w |}.

Definition with_queue (q : list string) (w : world) : world :=
  {| db := db w; queue := q; current_task_id := current_task_id w;
     running := running w; worker_task := worker_task w; clock := clock w;
     trace := trace w |}.

Definition with_current (c : option string) (w : world) : world :=
  {| db := db w; queue := queue w; current_task_id := c;
     running := running w; worker_task := worker_task w; clock := clock w;
     trace := trace w |}.

Definition with_running (b : bool) (w : world) : world :=
  {| db := db w; queue := queue w; current_task_id := current_task_id w;
     running := b; worker_task := worker_task w; clock := clock w;
     trace := trace w |}.

Definition with_worker (c : option coroutine) (w : world) : world :=
  {| db := db w; queue := queue w; current_task_id := current_task_id w;
     running := running w; worker_task := c; clock := clock w;
     trace := trace w |}.

Definition emit (e : event) (w : world) : world :=
  {| db := db w; queue := queue w; current_task_id := current_task_id w;
     running := running w; worker_task := worker_task w; clock := clock w;
     trace := trace w ++ [e] |}.

(** Time passes while the worker is suspended. *)
Definition advance (seconds : Z) (w : world) : world :=
  {| db := db w; queue := queue w; current_task_id := current_task_id w;
     running := running w; worker_task := worker_task w;
     clock := clock w + Z.max 0 seconds;
     trace := trace w |}.

(** Code of the worker: it returns or raises, and leaves a world. *)
Definition M (A : Type) : Type := world → outcome A * world.

Definition ret {A} (a : A) : M A := fun w => (Ok a, w).

Definition bind {A B} (m : M A) (k : A → M B) : M B :=
  fun w =>
    match m w with
    | (Ok a, w') => k a w'
    | (Raise e, w') => (Raise e, w')
    end.

Notation "'let*' x ':=' m 'in' k" := (bind m (fun x => k))
  (at level 10, x name, m at level 100, k at level 200).
Notation "m ';;' k" := (bind m (fun _ => k))
  (at level 100, k at level 200, right associativity).

(** [try: body  except ...], the clauses given as a partial function. *)
Definition try_except {A} (body : M A) (handler : exn → option (M A)) : M A :=
  fun w =>
    match body w with
    | (Ok a, w') => (Ok a, w')
    | (Raise e, w') =>
        match handler e with
        | Some h => h w'
        | None => (Raise e, w')
        end
    end.

Definition lift_outcome {A} (r : outcome A) : M A := fun w => (r, w).

Definition await_db {A} (m : DB A) : M A :=
  fun w => let '(r, s) := m (db w) in (r, with_db s w).

Definition utcnow : M datetime := fun w => (Ok (clock w), w).

Definition log (e : event) : M unit := fun w => (Ok tt, emit e w).

(** [await asyncio.sleep(seconds)] *)
Definition sleep (seconds : Z) : M unit :=
  fun w => (Ok tt, advance seconds (emit (EvSleep seconds) w)).

(** What [agent.run()] does when nothing interrupts it. *)
Inductive agent_behaviour : Type :=
| Finishes (after : Z) (final_result : string)
| Fails (after : Z) (class_name msg : string)
| Hangs.

(** [asyncio.wait_for(agent.run(), timeout)]: the outcome, and the time
    spent waiting. *)
Definition wait_for (b : agent_behaviour) (limit : Z) : outcome string * Z :=
  match b with
  | Finishes d r => if d <? limit then (Ok r, d) else (Raise TimeoutError, limit)
  | Fails d c m => if d <? limit then (Raise (Exception c m), d) else (Raise TimeoutError, limit)
  | Hangs => (Raise TimeoutError, limit)
  end.

(** [_run_browser_task]: the browser and the agent are set up, the agent
    runs under [wait_for], and both [except] clauses re-raise. *)
Definition _run_browser_task (b : agent_behaviour) (limit : Z) : outcome string * Z :=
  wait_for b limit.

Definition newline : string := String (Ascii.ascii_of_nat 10) EmptyString.

Section Worker.
Context (cfg : config).
Context {json : Type}.
Context (json_loads : string → option json).          (* [None]: JSONDecodeError *)
Context (json_truthy : json → bool).
Context (json_dumps_indent : json → string).          (* [json.dumps(_, indent=2)] *)
(** The webhook endpoint: what the POST number [attempt] (from 0) to
    [target] does; [None] is a 2xx response, [Some msg] an exception [e]
    with [str(e) = msg]. *)
Context (http_post : string → CallbackPayload → Z → option string).

(** One round of the [for] loop of [_send_callback]; [true] when the loop
    is left by [return]. The update after a successful POST stands in the
    [try] block too, and does not raise. *)
Definition callback_attempt (id target : string) (payload : CallbackPayload)
    (attempt : Z) : M bool :=
  log (EvPost target payload) ;;
  match http_post target payload attempt with
  | None =>
      await_db (update_callback_attempt id (attempt + 1) None) ;;
      ret true
  | Some e =>
      let error_msg :=
        "Callback attempt " +:+ pretty (attempt + 1) +:+ " failed: " +:+ e in
      await_db (update_callback_attempt id (attempt + 1) (Some error_msg)) ;;
      (if attempt <? WEBHOOK_RETRY_ATTEMPTS cfg - 1
       then sleep (WEBHOOK_RETRY_DELAY cfg * 2 ^ attempt)
       else ret tt) ;;
      ret false
  end.

(** [for attempt in range(...)], from [attempt] on with [remaining] rounds
    left. *)
Fixpoint callback_loop (id target : string) (payload : CallbackPayload)
    (remaining : nat) (attempt : Z) : M unit :=
  match remaining with
  | O => ret tt
  | S n =>
      let* delivered := callback_attempt id target payload attempt in
      if delivered : bool then ret tt
      else callback_loop id target payload n (attempt + 1)
  end.

Definition _send_callback (id target st : string) (res err : option string)
    (completed : datetime) : M unit :=
  let payload := {| p_task_id := id; p_status := st; p_result := res;
                    p_error := err; p_completed_at := completed |} in
  callback_loop id target payload (Z.to_nat (WEBHOOK_RETRY_ATTEMPTS cfg)) 0.

(** [if url: await self._send_callback(...)] for a column value. *)
Definition send_callback_if (target : option string) (id st : string)
    (res err : option string) (completed : datetime) : M unit :=
  match target with
  | Some u => if truthy u then _send_callback id u st res err completed else ret tt
  | None => ret tt
  end.

(** The description handed to the agent. *)
Definition build_description (task : Task) : string :=
  let form :=
    match form_data task with
    | Some text => if truthy text then json_loads text else None
    | None => None
    end in
  match form with
  | Some f =>
      if json_truthy f
      then task_description task +:+ newline +:+ newline
           +:+ "Form data to use: " +:+ json_dumps_indent f
      else task_description task
  | None => task_description task
  end.

(** [_execute_task] up to the call of the agent: [None] when the row is
    missing and the method returns at once. Nothing raises here, so the
    [except] clauses are reached from the agent call and from what follows
    it only. *)
Definition execute_prelude (id : string) : M (option Task) :=
  let* started := utcnow in
  let* found := await_db (get_task id) in
  match found with
  | None => ret None
  | Some task =>
      await_db (update_status id "running" (Some started) None None None) ;;
      log (EvAgent id (build_description task) (timeout task)) ;;
      ret (Some task)
  end.

(** The rest of the [try] block, once the agent call has an outcome. *)
Definition execute_body (id : string) (task : Task) (r : outcome string) : M unit :=
  let* res := lift_outcome r in
  let* completed := utcnow in
  await_db (update_status id "completed" None (Some completed) (Some res) None) ;;
  send_callback_if (callback_url task) id "completed" (Some res) None completed.

(** The two [except] clauses; [task] is the row read before the call. *)
Definition execute_handlers (id : string) (task : Task) (e : exn) : option (M unit) :=
  match e with
  | TimeoutError =>
      Some (let* completed := utcnow in
            let error_msg :=
              "Task exceeded timeout of " +:+ pretty (timeout task) +:+ " seconds" in
            await_db (update_status id "timeout" None (Some completed) None
                        (Some error_msg)) ;;
            send_callback_if (callback_url task) id "timeout" None
              (Some error_msg) completed)
  | CancelledError => None
  | _ =>
      Some (let* completed := utcnow in
            let error_msg := "Task execution error: " +:+ exn_str e in
            await_db (update_status id "failed" None (Some completed) None
                        (Some error_msg)) ;;
            let* again := await_db (get_task id) in
            match again with
            | Some task' =>
                send_callback_if (callback_url task') id "failed" None
                  (Some error_msg) completed
            | None => ret tt
            end)
  end.

(** [_execute_task] from the moment the agent call returns or raises. *)
Definition execute_finish (id : string) (task : Task) (r : outcome string) : M unit :=
  try_except (execute_body id task r) (execute_handlers id task).

(** [_execute_task], the agent doing [b]. *)
Definition _execute_task (b : agent_behaviour) (id : string) : M unit :=
  let* found := execute_prelude id in
  match found with
  | None => ret tt
  | Some task =>
      let '(r, waited) := _run_browser_task b (timeout task) in
      fun w => execute_finish id task r (advance waited w)
  end.

(** The [while self.running] test at the top of the loop. *)
Definition loop_head (w : world) : world :=
  with_worker (Some (if running w then AwaitQueue else Finished)) w.

(** The worker loop after [await self._execute_task(task_id)]. *)
Definition after_execute (r : outcome unit) (w : world) : world :=
  match r with
  | Ok _ => loop_head (with_current None w)          (* and [queue.task_done()] *)
  | Raise CancelledError => with_worker (Some Finished) w   (* [break] *)
  | Raise _ => loop_head (with_current None w)
  end.

(** The worker wakes from [wait_for(self.queue.get(), timeout=1.0)]: with
    the head of the queue, which it starts to execute, or after one second
    with nothing. *)
Definition worker_poll (w : world) : world :=
  match worker_task w with
  | Some AwaitQueue =>
      match queue w with
      | [] => loop_head (advance 1 w)
      | id :: rest =>
          let w1 := emit (EvDequeue id) (with_current (Some id) (with_queue rest w)) in
          match execute_prelude id w1 with
          | (Ok (Some task), w2) => with_worker (Some (AwaitAgent id task)) w2
          | (Ok None, w2) => after_execute (Ok tt) w2
          | (Raise e, w2) => after_execute (Raise e) w2
          end
      end
  | _ => w
  end.

(** The agent call returns or raises after [waited] seconds and the worker
    goes on to the end of this round of its loop. *)
Definition worker_resume (r : outcome string) (waited : Z) (w : world) : world :=
  match worker_task w with
  | Some (AwaitAgent id task) =>
      let '(r', w') := execute_finish id task r (advance waited w) in
      after_execute r' w'
  | _ => w
  end.

(** One round of the worker loop, the agent doing what [agent_run] says. *)
Definition worker_round (agent_run : string → string → agent_behaviour)
    (w : world) : world :=
  let w1 := worker_poll w in
  match worker_task w1 with
  | Some (AwaitAgent id task) =>
      let '(r, waited) :=
        _run_browser_task (agent_run id (build_description task)) (timeout task) in
      worker_resume r waited w1
  | _ => w1
  end.

(** [_worker], for [n] rounds of its loop. *)
Fixpoint _worker (agent_run : string → string → agent_behaviour)
    (n : nat) (w : world) : world :=
  match n with
  | O => w
  | S n' => _worker agent_run n' (worker_round agent_run w)
  end.

Definition start (w : world) : world :=
  if running w then w
  else with_worker (Some AwaitQueue) (with_running true w).

(** [stop]: clear the flag, cancel the worker where it is suspended, and
    wait for it. The [CancelledError] raised at the [await] is caught by
    the loop only, which leaves by [break]. *)
Definition stop (w : world) : world :=
  let w1 := with_running false w in
  match worker_task w1 with
  | None => w1
  | Some AwaitQueue => after_execute (Raise CancelledError) w1
  | Some (AwaitAgent _ _) => worker_resume (Raise CancelledError) 0 w1
  | Some Finished => w1
  end.

(** [asyncio.Queue()] has no bound: [put] returns at once. *)
Definition add_task (id : string) (w : world) : world :=
  with_queue (queue w ++ [id]) w.

Definition get_queue_size (w : world) : Z := Z.of_nat (length (queue w)).

End Worker.

End TaskQueue.

(** ** api/server.py *)

Module Server.
Import Models Database TaskQueue.

(** The answer to [GET {CHROME_CDP_URL}/json/version]. *)
Inductive cdp_probe : Type :=
| Responded (status_code : Z)
| RequestError.

Section Endpoints.
Context {json : Type} (json_dumps : json → string).

(** [POST /tasks] with a validated body; [uuid] is the value of
    [uuid4()]. The queue is not touched: the handler only writes the
    row. *)
Definition create_task (request : @Models.TaskRequest json) (probe : cdp_probe)
    (uuid : string) : M TaskResponse :=
  match probe with
  | RequestError => lift_outcome (Raise (HTTPException 503))
  | Responded code =>
      if negb (code =? 200) then lift_outcome (Raise (HTTPException 503))
      else
        let* now := utcnow in
        let* task_data :=
          await_db (Database.create_task json_dumps uuid
                      (Models.url request) (Models.task_description request)
                      (Models.form_data request) (Models.callback_url request)
                      (Models.timeout request) now) in
        ret {| r_task_id := c_task_id task_data;
               r_status := c_status task_data;
               r_queue_position := None;
               r_created_at := c_created_at task_data |}
  end.

(** The request as FastAPI handles it: the body is validated first. *)
Definition post_tasks (http_url : string → option string) (empty_dict : json)
    (b : @Models.body json) (probe : cdp_probe) (uuid : string) : M TaskResponse :=
  let* request := lift_outcome (Models.validate http_url empty_dict b) in
  create_task request probe uuid.

(** [lifespan] at startup. *)
Definition startup : M unit :=
  let* now := utcnow in await_db (init_database now).
End Endpoints.

(** The [TaskStatus] that [GET /tasks/{task_id}] and [GET /tasks] build from
    a row. *)
Definition to_TaskStatus (task : Task) : TaskStatus :=
  {| ts_task_id := Database.task_id task;
     ts_status := Database.status task;
     ts_url := Some (Database.url task);
     ts_task_description := Some (Database.task_description task);
     ts_result := Database.result task;
     ts_error := Database.error task;
     ts_created_at := Database.created_at task;
     ts_started_at := Database.started_at task;
     ts_completed_at := Database.completed_at task |}.

(** [GET /tasks/{task_id}] *)
Definition get_task (id : string) : M TaskStatus :=
  let* task := await_db (Database.get_task id) in
  match task with
  | None => lift_outcome (Raise (HTTPException 404))
  | Some task => ret (to_TaskStatus task)
  end.

(** [GET /tasks]: the limit is brought into 1..100 before the query. *)
Definition clamp_limit (limit : Z) : Z :=
  let limit := if limit >? 100 then 100 else limit in
  if limit <? 1 then 1 else limit.

Definition list_tasks (filter_status : option string) (limit offset : Z)
    : M TaskListResponse :=
  let limit := clamp_limit limit in
  let* page := await_db (Database.list_tasks filter_status limit offset) in
  ret {| l_tasks := to_TaskStatus <$> page.1;
         l_total := page.2;
         l_limit := limit;
         l_offset := offset |}.




End Server.

(** * Vocabulary of the properties, and sample data *)

Import Config Models Database TaskQueue.

(** An example table: one task waiting, one done. *)
Definition sample_task (id st : string) (cb : option string) : Task :=
  {| task_id := id; url := "https://example.com/"; task_description := "fill in the form";
     form_data := None; callback_url := cb; timeout := 30;
     status := st; result := None; error := None;
     callback_attempts := 0; last_callback_error := None;
     created_at := 0; started_at := None; completed_at := None |}.

Definition sample_store : store :=
  <["a" := sample_task "a" "queued" None]>
    (<["b" := sample_task "b" "completed" None]> ∅).

(** A row with its two webhook columns blanked: what a delivery must not
    change. *)
Definition forget_callback (t : Task) : Task := set_callback_attempt 0 None t.

(** The fields of the world that a delivery does not touch. *)
Definition same_queue_state (w w' : world) : Prop :=
  queue w' = queue w ∧ current_task_id w' = current_task_id w ∧
  running w' = running w ∧ worker_task w' = worker_task w.

Section DeliveryVocabulary.
Context (cfg : config).
(** The endpoint's answers to the successive POSTs of one delivery. *)
Context (post : Z → option string).

(** The number of POSTs until the first success, at most [remaining],
    counting from the POST number [attempt]. *)
Fixpoint attempts_made (remaining : nat) (attempt : Z) : nat :=
  match remaining with
  | O => O
  | S n =>
      match post attempt with
      | None => 1%nat
      | Some _ => S (attempts_made n (attempt + 1))
      end
  end.

(** The error column after the POST number [attempt]. *)
Definition attempt_error (attempt : Z) : option string :=
  match post attempt with
  | None => None
  | Some e => Some ("Callback attempt " +:+ pretty (attempt + 1) +:+ " failed: " +:+ e)
  end.

(** The delay between the [n]-th POST and the next, [n] from 1. *)
Definition backoff_delay (n : Z) : Z := WEBHOOK_RETRY_DELAY cfg * 2 ^ (n - 1).

(** [made] POSTs, the first numbered [first + 1], with the delays between
    them. *)
Definition delivery_events (target : string) (payload : CallbackPayload)
    (first : Z) (made : nat) : list event :=
  match made with
  | O => []
  | S m =>
      flat_map (λ n, [EvPost target payload; EvSleep (backoff_delay n)])
               (seqZ (first + 1) (Z.of_nat m))
      ++ [EvPost target payload]
  end.

(** The seconds slept in a delivery of [made] POSTs. *)
Definition delivery_time (first : Z) (made : nat) : Z :=
  foldr Z.add 0 ((λ n, Z.max 0 (backoff_delay n)) <$> seqZ (first + 1) (Z.of_nat (pred made))).
End DeliveryVocabulary.

Section ExecutionVocabulary.
Context (cfg : config).
Context (http_post : string → CallbackPayload → Z → option string).

(** The number of POSTs of a whole delivery to [target]. *)
Definition posts_made (target : string) (payload : CallbackPayload) : nat :=
  attempts_made (http_post target payload)
    (Z.to_nat (WEBHOOK_RETRY_ATTEMPTS cfg)) 0.

(** The events, and the seconds slept, of the delivery that follows a
    terminal update, for the [callback_url] column [target]. *)
Definition callback_events (target : option string)
    (payload : CallbackPayload) : list event :=
  match target with
  | Some u =>
      if truthy u then delivery_events cfg u payload 0 (posts_made u payload)
      else []
  | None => []
  end.

Definition callback_time (target : option string)
    (payload : CallbackPayload) : Z :=
  match target with
  | Some u => if truthy u then delivery_time cfg 0 (posts_made u payload) else 0
  | None => 0
  end.
End ExecutionVocabulary.

(** The agent does not finish within [limit] seconds. *)
Definition exceeds_timeout (b : agent_behaviour) (limit : Z) : Prop :=
  match b with
  | Finishes d _ => limit ≤ d
  | Fails d _ _ => limit ≤ d
  | Hangs => True
  end.

(** Sample worlds and environments. *)
Definition callback_task (id st : string) : Task :=
  sample_task id st (Some "http://example/cb").

Definition sample_world : world := {|
  db := <["c" := callback_task "c" "completed"]> sample_store;
  queue := [];
  current_task_id := None;
  running := true;
  worker_task := Some AwaitQueue;
  clock := 100;
  trace := []
|}.


Definition dead_endpoint : string → CallbackPayload → Z → option string :=
  fun _ _ _ => Some "connection refused".

(** No JSON in the samples: [form_data] is absent or not loaded. *)
Definition no_json_loads : string → option unit := fun _ => None.
Definition no_json_truthy : unit → bool := fun _ => false.
Definition no_json_dumps : unit → string := fun _ => "{}".

(** A task that waits in the table with a webhook configured. *)
Definition timeout_world : world := {|
  db := <["t" := callback_task "t" "queued"]> sample_store;
  queue := [];
  current_task_id := Some "t";
  running := true;
  worker_task := Some AwaitQueue;
  clock := 100;
  trace := []
|}.

(** The statuses that the worker leaves behind. *)
Definition terminal (st : string) : Prop :=
  st = "completed" ∨ st = "failed" ∨ st = "timeout".

Definition at_most_one_running (s : store) : Prop :=
  ∀ i j ti tj, s !! i = Some ti → s !! j = Some tj →
    status ti = "running" → status tj = "running" → i = j.

(** The ids that the worker took off the queue, and the ids for which it
    called the agent, in order. *)
Definition dequeued (tr : list event) : list string :=
  omap (λ e, match e with EvDequeue id => Some id | _ => None end) tr.

Definition agent_calls (tr : list event) : list string :=
  omap (λ e, match e with EvAgent id _ _ => Some id | _ => None end) tr.

(** The process right after its start: the table as it was found on disk
    and reconciled by [lifespan], and a new [TaskQueue()]. *)
Definition boot (disk : store) (now : datetime) : world := {|
  db := (init_database now disk).2;
  queue := [];
  current_task_id := None;
  running := false;
  worker_task := None;
  clock := now;
  trace := []
|}.

Section Operations.
Context (cfg : config).
Context {json : Type}.
Context (json_loads : string → option json).
Context (json_truthy : json → bool).
Context (json_dumps_indent : json → string).
Context (json_dumps : json → string).
Context (http_post : string → CallbackPayload → Z → option string).

(** What can happen to the process: a submission is handled, an id is put
    on the queue, the worker is started, the worker wakes from the queue,
    the agent call of the task in hand ends, the table is reconciled. *)
Inductive operation : world → world → Prop :=
| op_create (request : @Models.TaskRequest json) (probe : Server.cdp_probe)
      (uuid : string) (w : world) :
    operation w (Server.create_task json_dumps request probe uuid w).2
| op_add_task (id : string) (w : world) :
    operation w (add_task id w)
| op_start (w : world) :
    operation w (start w)
| op_poll (w : world) :
    operation w
      (worker_poll json_loads json_truthy json_dumps_indent w)
| op_resume (b : agent_behaviour) (id : string) (task : Task) (w : world) :
    worker_task w = Some (AwaitAgent id task) →
    operation w
      (worker_resume cfg http_post
         (wait_for b (timeout task)).1 (wait_for b (timeout task)).2 w)
| op_reconcile (w : world) :
    operation w (Server.startup w).2.

(** What holds between two rounds of the worker, and during one. *)
Definition running_is_current (w : world) : Prop :=
  (∀ k t, db w !! k = Some t → status t = "running" →
     ∃ task, worker_task w = Some (AwaitAgent k task)) ∧
  (worker_task w = Some AwaitQueue ∨ (∃ k task, worker_task w = Some (AwaitAgent k task))
     → running w = true).
End Operations.

(** A running worker with two ids on its queue: "t", with a webhook, then
    "a". *)
Definition queued_world : world := {|
  db := <["t" := callback_task "t" "queued"]> sample_store;
  queue := ["t"; "a"];
  current_task_id := None;
  running := true;
  worker_task := Some AwaitQueue;
  clock := 100;
  trace := []
|}.

(** A running worker with nothing to do. *)
Definition idle_world : world := {|
  db := sample_store;
  queue := [];
  current_task_id := None;
  running := true;
  worker_task := Some AwaitQueue;
  clock := 100;
  trace := []
|}.

(** An agent that is done after five seconds. *)
Definition quick_agent : string → string → agent_behaviour :=
  fun _ _ => Finishes 5 "done".

(** A body that passes validation, and a URL parser that accepts what
    starts with "http". *)
Definition sample_http_url (s : string) : option string :=
  if String.prefix "http" s then Some s else None.

Definition sample_body (t : option Z) : @Models.body unit := {|
  Models.b_url := Some "https://example.com/form";
  Models.b_task_description := Some "Fill in the contact form";
  Models.b_form_data := None;
  Models.b_callback_url := None;
  Models.b_timeout := t
|}.


(** What the caller supplied, and the creation time: the columns that no
    update names. *)
Definition same_request (t t' : Task) : Prop :=
  task_id t' = task_id t ∧ url t' = url t ∧
  task_description t' = task_description t ∧ form_data t' = form_data t ∧
  callback_url t' = callback_url t ∧ timeout t' = timeout t ∧
  created_at t' = created_at t.

(** Every row of [w] is still there in [w'], with the same request. *)
Definition rows_kept (w w' : world) : Prop :=
  ∀ k t, db w !! k = Some t → ∃ t', db w' !! k = Some t' ∧ same_request t t'.

(** A piece of the worker's code writes to the row of [id] only. *)
Definition touches_only {A : Type} (id : string) (m : M A) : Prop :=
  ∀ w k, k ≠ id → db (m w).2 !! k = db w !! k.


Section Actions.
Context (cfg : config).
Context {json : Type}.
Context (json_loads : string → option json).
Context (json_truthy : json → bool).
Context (json_dumps_indent : json → string).
Context (json_dumps : json → string).
Context (http_post : string → CallbackPayload → Z → option string).

(** The operations, and [stop]. *)
Inductive action : world → world → Prop :=
| act_operation (w w' : world) :
    operation cfg json_loads json_truthy json_dumps_indent json_dumps http_post w w' →
    action w w'
| act_stop (w : world) :
    action w (stop cfg http_post w).
End Actions.

(** * Properties *)

Set Default Proof Using "Type".

(** ** The table *)

Lemma alter_missing (f : Task → Task) (id : string) (s : store) :
  s !! id = None → alter f id s = s.
Proof.
  intros Hnone. apply map_eq. intros k.
  destruct (decide (id = k)) as [<- | Hne].
  - rewrite lookup_alter_eq, Hnone. reflexivity.
  - rewrite lookup_alter_ne by assumption. reflexivity.
Qed.

Lemma incomplete_iff (t : Task) :
  incomplete t = true ↔ status t = "queued" ∨ status t = "running".
Proof.
  unfold incomplete. rewrite orb_true_iff, !String.eqb_eq. reflexivity.
Qed.

Lemma fail_if_incomplete_status (now : datetime) (t : Task) :
  incomplete (fail_if_incomplete now t) = false.
Proof.
  unfold fail_if_incomplete. destruct (incomplete t) eqn:E; [reflexivity | exact E].
Qed.

(** C3, as the code has it: after [mark_incomplete_as_failed] no row is
    [queued] or [running]; each row that was is now [failed] with error
    "Server restarted during execution" and [completed_at] the time of the
    reconciliation, its other columns as before; all other rows are
    unchanged, and no row is added or removed. *)
Theorem mark_incomplete_as_failed_spec (now : datetime) (s : store) :
  ∃ s', mark_incomplete_as_failed now s = (Ok tt, s') ∧
    (∀ id t', s' !! id = Some t' → status t' ≠ "queued" ∧ status t' ≠ "running") ∧
    (∀ id t, s !! id = Some t → status t = "queued" ∨ status t = "running" →
       s' !! id = Some (set_status "failed" None (Some now) None
                          (Some "Server restarted during execution") t)) ∧
    (∀ id t, s !! id = Some t → status t ≠ "queued" → status t ≠ "running" →
       s' !! id = Some t) ∧
    (∀ id, s !! id = None → s' !! id = None).
Proof.
  exists (fail_if_incomplete now <$> s). split; [reflexivity |].
  split; [| split; [| split]].
  - intros id t' Hl. rewrite lookup_fmap in Hl.
    destruct (s !! id) as [t |]; simpl in Hl; [| discriminate].
    injection Hl as <-.
    pose proof (fail_if_incomplete_status now t) as Hn.
    split; intros E;
      assert (incomplete (fail_if_incomplete now t) = true) as Ht
        by (apply incomplete_iff; tauto);
      congruence.
  - intros id t Hl Hst. rewrite lookup_fmap, Hl. simpl. f_equal.
    unfold fail_if_incomplete.
    apply incomplete_iff in Hst. rewrite Hst. reflexivity.
  - intros id t Hl Hq Hr. rewrite lookup_fmap, Hl. simpl. f_equal.
    unfold fail_if_incomplete.
    destruct (incomplete t) eqn:E; [| reflexivity].
    apply incomplete_iff in E. tauto.
  - intros id Hl. rewrite lookup_fmap, Hl. reflexivity.
Qed.

Lemma mark_incomplete_as_failed_spec_witness :
  ∃ s', mark_incomplete_as_failed 7 sample_store = (Ok tt, s') ∧
    s' !! "a" = Some (set_status "failed" None (Some 7) None
                        (Some "Server restarted during execution")
                        (sample_task "a" "queued" None)) ∧
    s' !! "b" = Some (sample_task "b" "completed" None).
Proof.
  destruct (mark_incomplete_as_failed_spec 7 sample_store)
    as (s' & Hrun & _ & Hfail & Hkeep & _).
  exists s'. split; [exact Hrun |]. split.
  - apply Hfail; [reflexivity | left; reflexivity].
  - apply Hkeep; [reflexivity | discriminate | discriminate].
Defined.

(** C3 as worded fails on the text of the failure reason: the row gets
    "Server restarted during execution", with a capital. *)
Lemma mark_incomplete_as_failed_reason_text :
  ∃ s' t', mark_incomplete_as_failed 7 sample_store = (Ok tt, s') ∧
    s' !! "a" = Some t' ∧ status t' = "failed" ∧
    error t' = Some "Server restarted during execution" ∧
    error t' ≠ Some "server restarted during execution".
Proof.
  eexists _, _. split; [reflexivity |]. split; [reflexivity |].
  split; [reflexivity |]. split; [reflexivity | discriminate].
Qed.

(** C8, as the code has it: [update_status] and [update_callback_attempt]
    on an id that is not in the table return normally and leave the table as
    it was; nothing is raised. *)
Theorem update_unknown_id_is_silent (id st : string)
    (started completed : option datetime) (res err : option string)
    (attempts : Z) (cb_err : option string) (s : store) :
  s !! id = None →
  update_status id st started completed res err s = (Ok tt, s) ∧
  update_callback_attempt id attempts cb_err s = (Ok tt, s).
Proof.
  intros Hnone. unfold update_status, update_callback_attempt.
  rewrite !alter_missing by assumption. split; reflexivity.
Qed.

Lemma update_unknown_id_is_silent_witness :
  update_status "ghost" "running" (Some 5) None None None sample_store
    = (Ok tt, sample_store) ∧
  update_callback_attempt "ghost" 1 None sample_store = (Ok tt, sample_store).
Proof.
  apply (update_unknown_id_is_silent "ghost" "running" (Some 5) None None None
           1 None sample_store).
  reflexivity.
Defined.

(** C8 as worded fails: marking the unknown id "ghost" as running, or
    recording a callback attempt for it, raises nothing. *)
Lemma update_unknown_id_no_error :
  sample_store !! "ghost" = None ∧
  (∀ e, (update_status "ghost" "running" (Some 5) None None None sample_store).1
        ≠ Raise e) ∧
  (∀ e, (update_callback_attempt "ghost" 1 None sample_store).1 ≠ Raise e) ∧
  (update_status "ghost" "running" (Some 5) None None None sample_store).2
    = sample_store ∧
  (update_callback_attempt "ghost" 1 None sample_store).2 = sample_store.
Proof.
  assert (sample_store !! "ghost" = None) as Hnone by reflexivity.
  split; [exact Hnone |].
  unfold update_status, update_callback_attempt. simpl.
  rewrite !alter_missing by exact Hnone.
  repeat split; discriminate.
Qed.

(** ** Webhook delivery *)

Section Delivery.
Context (cfg : config).
Context (http_post : string → CallbackPayload → Z → option string).
Context (id target : string) (payload : CallbackPayload).

Let post : Z → option string := http_post target payload.

Lemma callback_attempt_run (a : Z) (w : world) :
  ∃ w', callback_attempt cfg http_post id target payload a w
          = (Ok (bool_decide (post a = None)), w') ∧
    db w' = alter (set_callback_attempt (a + 1) (attempt_error post a)) id (db w) ∧
    same_queue_state w w' ∧
    trace w' = trace w ++ EvPost target payload ::
                 (if bool_decide (post a = None) then []
                  else if a <? WEBHOOK_RETRY_ATTEMPTS cfg - 1
                       then [EvSleep (backoff_delay cfg (a + 1))] else []) ∧
    clock w' = clock w +
                 (if bool_decide (post a = None) then 0
                  else if a <? WEBHOOK_RETRY_ATTEMPTS cfg - 1
                       then Z.max 0 (backoff_delay cfg (a + 1)) else 0).
Proof.
  unfold callback_attempt, attempt_error, backoff_delay, post, same_queue_state.
  replace (a + 1 - 1) with a by lia.
  unfold bind, log, await_db, update_callback_attempt, sleep, ret.
  destruct (http_post target payload a) as [e |] eqn:E; simpl.
  - destruct (a <? WEBHOOK_RETRY_ATTEMPTS cfg - 1) eqn:L; simpl;
      eexists; (split; [reflexivity |]); simpl;
      rewrite <- ?app_assoc; simpl; repeat split; lia.
  - eexists; (split; [reflexivity |]); simpl. repeat split; lia.
Qed.

Lemma attempts_made_pos (n : nat) (a : Z) :
  attempts_made post (S n) a ≠ O.
Proof. simpl. destruct (post a); discriminate. Qed.


Lemma set_callback_attempt_twice (x y : Z) (e e' : option string) (s : store) :
  alter (set_callback_attempt x e) id (alter (set_callback_attempt y e') id s)
  = alter (set_callback_attempt x e) id s.
Proof.
  rewrite alter_alter_eq. apply alter_ext. intros t _. reflexivity.
Qed.

Lemma delivery_events_step (a : Z) (m : nat) :
  0 ≤ a →
  EvPost target payload :: EvSleep (backoff_delay cfg (a + 1))
    :: delivery_events cfg target payload (a + 1) (S m)
  = delivery_events cfg target payload a (S (S m)).
Proof.
  intros Ha. unfold delivery_events.
  rewrite (seqZ_cons (a + 1) (Z.of_nat (S m))) by lia.
  replace (Z.pred (Z.of_nat (S m))) with (Z.of_nat m) by lia.
  replace (Z.succ (a + 1)) with (a + 1 + 1) by lia.
  reflexivity.
Qed.

Lemma delivery_time_step (a : Z) (m : nat) :
  0 ≤ a →
  Z.max 0 (backoff_delay cfg (a + 1)) + delivery_time cfg (a + 1) (S m)
  = delivery_time cfg a (S (S m)).
Proof.
  intros Ha. unfold delivery_time. simpl pred.
  rewrite (seqZ_cons (a + 1) (Z.of_nat (S m))) by lia.
  replace (Z.pred (Z.of_nat (S m))) with (Z.of_nat m) by lia.
  replace (Z.succ (a + 1)) with (a + 1 + 1) by lia.
  reflexivity.
Qed.

(** The loop from the POST number [a] on, [n] rounds being left of the
    [WEBHOOK_RETRY_ATTEMPTS]. *)
Lemma callback_loop_run (n : nat) (a : Z) (w : world) :
  0 ≤ a → a + Z.of_nat n = WEBHOOK_RETRY_ATTEMPTS cfg →
  ∃ w', callback_loop cfg http_post id target payload n a w = (Ok tt, w') ∧
    db w' = match attempts_made post n a with
            | O => db w
            | S m => alter (set_callback_attempt (a + Z.of_nat (S m))
                              (attempt_error post (a + Z.of_nat m))) id (db w)
            end ∧
    same_queue_state w w' ∧
    trace w' = trace w ++ delivery_events cfg target payload a (attempts_made post n a) ∧
    clock w' = clock w + delivery_time cfg a (attempts_made post n a).
Proof.
  revert a w. induction n as [| n IH]; intros a w Ha Hsum.
  - exists w. simpl. unfold same_queue_state, delivery_time. simpl.
    rewrite app_nil_r. repeat split; lia.
  - destruct (callback_attempt_run a w) as (w1 & Hrun & Hdb & Hq & Htr & Hck).
    cbn [callback_loop]. unfold bind at 1. rewrite Hrun.
    cbn [attempts_made]. fold post.
    destruct (post a) as [e |] eqn:E.
    + rewrite bool_decide_eq_false_2 in * by discriminate.
      destruct (IH (a + 1) w1 ltac:(lia) ltac:(lia)) as (w2 & Hrun2 & Hdb2 & Hq2 & Htr2 & Hck2).
      exists w2. split; [exact Hrun2 |].
      destruct n as [| n'].
      * cbn [attempts_made] in *.
        assert ((a <? WEBHOOK_RETRY_ATTEMPTS cfg - 1) = false) as L
          by (apply Z.ltb_ge; lia).
        rewrite L in *.
        rewrite Hdb2, Hdb, Htr2, Htr, Hck2, Hck.
        replace (a + Z.of_nat 1) with (a + 1) by lia.
        replace (a + Z.of_nat 0) with a by lia.
        unfold delivery_time, same_queue_state in *. simpl.
        rewrite app_nil_r.
        repeat split; try (destruct Hq, Hq2; intuition congruence); lia.
      * assert ((a <? WEBHOOK_RETRY_ATTEMPTS cfg - 1) = true) as L
          by (apply Z.ltb_lt; lia).
        rewrite L in *.
        destruct (attempts_made post (S n') (a + 1)) as [| m] eqn:M;
          [exfalso; exact (attempts_made_pos n' (a + 1) M) |].
        rewrite Hdb2, Hdb, Htr2, Htr, Hck2, Hck.
        rewrite set_callback_attempt_twice.
        replace (a + 1 + Z.of_nat (S m)) with (a + Z.of_nat (S (S m))) by lia.
        replace (a + 1 + Z.of_nat m) with (a + Z.of_nat (S m)) by lia.
        rewrite <- delivery_events_step, <- delivery_time_step by assumption.
        rewrite <- app_assoc. simpl.
        unfold same_queue_state in *.
        repeat split; try (destruct Hq, Hq2; intuition congruence); lia.
    + rewrite bool_decide_eq_true_2 in * by reflexivity.
      exists w1. split; [reflexivity |].
      rewrite Hdb, Htr, Hck.
      replace (a + Z.of_nat 1) with (a + 1) by lia.
      replace (a + Z.of_nat 0) with a by lia.
      unfold delivery_time. simpl.
      repeat split; try apply Hq; lia.
Qed.



Lemma forget_callback_alter (x : Z) (e : option string) (s : store) (k : string) :
  forget_callback <$> (alter (set_callback_attempt x e) id s !! k)
  = forget_callback <$> (s !! k).
Proof.
  rewrite lookup_alter. destruct (decide (id = k)) as [<- | Hne]; [| reflexivity].
  destruct (s !! id); reflexivity.
Qed.
End Delivery.



(** ** Executing one task *)


Section Prelude.
Context {json : Type}.
Context (json_loads : string → option json).
Context (json_truthy : json → bool).
Context (json_dumps_indent : json → string).

Lemma execute_prelude_missing (id : string) (w : world) :
  db w !! id = None →
  execute_prelude json_loads json_truthy json_dumps_indent id w = (Ok None, w).
Proof.
  intros Hnone. destruct w as [s q c r wt ck tr]. simpl in Hnone.
  unfold execute_prelude, bind, utcnow, await_db, get_task, ret. simpl.
  rewrite Hnone. reflexivity.
Qed.

Lemma execute_prelude_found (id : string) (task : Task) (w : world) :
  db w !! id = Some task →
  ∃ w1, execute_prelude json_loads json_truthy json_dumps_indent id w
          = (Ok (Some task), w1) ∧
    db w1 = alter (set_status "running" (Some (clock w)) None None None) id (db w) ∧
    same_queue_state w w1 ∧
    trace w1 = trace w ++ [EvAgent id
                 (build_description json_loads json_truthy json_dumps_indent task)
                 (timeout task)] ∧
    clock w1 = clock w.
Proof.
  intros Hrow.
  unfold execute_prelude, bind, utcnow, await_db, get_task, update_status, log, ret.
  simpl. rewrite Hrow. eexists. split; [reflexivity |].
  unfold same_queue_state. simpl. tauto.
Qed.
End Prelude.

Section Execution.
Context (cfg : config).
Context (http_post : string → CallbackPayload → Z → option string).

(** A delivery never raises and writes the two webhook columns only. *)
Lemma send_callback_run (id target st : string) (res err : option string)
    (completed : datetime) (w : world) :
  let payload := {| p_task_id := id; p_status := st; p_result := res;
                    p_error := err; p_completed_at := completed |} in
  ∃ w', _send_callback cfg http_post id target st res err completed w = (Ok tt, w') ∧
    (∀ k, forget_callback <$> (db w' !! k) = forget_callback <$> (db w !! k)) ∧
    same_queue_state w w' ∧
    trace w' = trace w ++ delivery_events cfg target payload 0
                            (posts_made cfg http_post target payload) ∧
    clock w' = clock w + delivery_time cfg 0 (posts_made cfg http_post target payload).
Proof.
  intros payload. unfold _send_callback, posts_made. fold payload.
  destruct (Z.to_nat (WEBHOOK_RETRY_ATTEMPTS cfg)) as [| n] eqn:N.
  - exists w. simpl. rewrite app_nil_r. unfold delivery_time. simpl.
    repeat split; try reflexivity. lia.
  - destruct (callback_loop_run cfg http_post id target payload (S n) 0 w
                ltac:(lia) ltac:(lia)) as (w' & Hrun & Hdb & Hq & Htr & Hck).
    exists w'. split; [exact Hrun |].
    split; [| tauto].
    intros k. rewrite Hdb.
    destruct (attempts_made (http_post target payload) (S n) 0); [reflexivity |].
    apply forget_callback_alter.
Qed.

Lemma send_callback_if_run (target : option string) (id st : string)
    (res err : option string) (completed : datetime) (w : world) :
  let payload := {| p_task_id := id; p_status := st; p_result := res;
                    p_error := err; p_completed_at := completed |} in
  ∃ w', send_callback_if cfg http_post target id st res err completed w = (Ok tt, w') ∧
    (∀ k, forget_callback <$> (db w' !! k) = forget_callback <$> (db w !! k)) ∧
    same_queue_state w w' ∧
    trace w' = trace w ++ callback_events cfg http_post target payload ∧
    clock w' = clock w + callback_time cfg http_post target payload.
Proof.
  intros payload. unfold send_callback_if, callback_events, callback_time.
  destruct target as [u |]; [destruct (truthy u) |].
  - apply send_callback_run.
  - exists w. rewrite app_nil_r.
    repeat split; try reflexivity. lia.
  - exists w. rewrite app_nil_r.
    repeat split; try reflexivity. lia.
Qed.

(** A terminal update followed by the delivery for it. *)
Lemma resolve_run (target : option string) (id st : string)
    (res err : option string) (w : world) :
  let payload := {| p_task_id := id; p_status := st; p_result := res;
                    p_error := err; p_completed_at := clock w |} in
  ∃ w',
    bind (await_db (update_status id st None (Some (clock w)) res err))
         (fun _ => send_callback_if cfg http_post target id st res err (clock w)) w
      = (Ok tt, w') ∧
    (∀ k, forget_callback <$> (db w' !! k)
          = forget_callback <$> (alter (set_status st None (Some (clock w)) res err)
                                   id (db w) !! k)) ∧
    same_queue_state w w' ∧
    trace w' = trace w ++ callback_events cfg http_post target payload ∧
    clock w' = clock w + callback_time cfg http_post target payload.
Proof.
  intros payload. unfold bind at 1. unfold await_db, update_status.
  destruct (send_callback_if_run target id st res err (clock w)
              (with_db (alter (set_status st None (Some (clock w)) res err) id (db w)) w))
    as (w' & Hrun & Hdb & Hq & Htr & Hck).
  exists w'. split; [exact Hrun |].
  split; [exact Hdb |]. split; [exact Hq |]. split; [exact Htr | exact Hck].
Qed.

Lemma execute_finish_ok (id : string) (task : Task) (res : string) (w : world) :
  let payload := {| p_task_id := id; p_status := "completed"; p_result := Some res;
                    p_error := None; p_completed_at := clock w |} in
  ∃ w', execute_finish cfg http_post id task (Ok res) w = (Ok tt, w') ∧
    (∀ k, forget_callback <$> (db w' !! k)
          = forget_callback <$> (alter (set_status "completed" None (Some (clock w))
                                          (Some res) None) id (db w) !! k)) ∧
    same_queue_state w w' ∧
    trace w' = trace w ++ callback_events cfg http_post (callback_url task) payload ∧
    clock w' = clock w + callback_time cfg http_post (callback_url task) payload.
Proof.
  intros payload.
  destruct (resolve_run (callback_url task) id "completed" (Some res) None w)
    as (w' & Hrun & Hrest).
  exists w'. split; [| exact Hrest].
  unfold execute_finish, try_except, execute_body.
  unfold bind at 1. unfold lift_outcome. unfold bind at 1. unfold utcnow.
  rewrite Hrun. reflexivity.
Qed.

Lemma execute_finish_timeout (id : string) (task : Task) (w : world) :
  let reason := "Task exceeded timeout of " +:+ pretty (timeout task) +:+ " seconds" in
  let payload := {| p_task_id := id; p_status := "timeout"; p_result := None;
                    p_error := Some reason; p_completed_at := clock w |} in
  ∃ w', execute_finish cfg http_post id task (Raise TimeoutError) w = (Ok tt, w') ∧
    (∀ k, forget_callback <$> (db w' !! k)
          = forget_callback <$> (alter (set_status "timeout" None (Some (clock w))
                                          None (Some reason)) id (db w) !! k)) ∧
    same_queue_state w w' ∧
    trace w' = trace w ++ callback_events cfg http_post (callback_url task) payload ∧
    clock w' = clock w + callback_time cfg http_post (callback_url task) payload.
Proof.
  intros reason payload.
  destruct (resolve_run (callback_url task) id "timeout" None (Some reason) w)
    as (w' & Hrun & Hrest).
  exists w'. split; [| exact Hrest].
  unfold execute_finish, try_except, execute_body.
  unfold bind at 1. unfold lift_outcome. cbn [execute_handlers].
  unfold bind at 1. unfold utcnow.
  exact Hrun.
Qed.

Lemma execute_finish_cancelled (id : string) (task : Task) (w : world) :
  execute_finish cfg http_post id task (Raise CancelledError) w
  = (Raise CancelledError, w).
Proof. reflexivity. Qed.

Lemma execute_finish_error (id : string) (task : Task) (e : exn) (w : world) :
  e ≠ TimeoutError → e ≠ CancelledError →
  let reason := "Task execution error: " +:+ exn_str e in
  let payload := {| p_task_id := id; p_status := "failed"; p_result := None;
                    p_error := Some reason; p_completed_at := clock w |} in
  let target := db w !! id ≫= callback_url in
  ∃ w', execute_finish cfg http_post id task (Raise e) w = (Ok tt, w') ∧
    (∀ k, forget_callback <$> (db w' !! k)
          = forget_callback <$> (alter (set_status "failed" None (Some (clock w))
                                          None (Some reason)) id (db w) !! k)) ∧
    same_queue_state w w' ∧
    trace w' = trace w ++ callback_events cfg http_post target payload ∧
    clock w' = clock w + callback_time cfg http_post target payload.
Proof.
  intros Hnt Hnc reason payload target.
  set (w1 := with_db (alter (set_status "failed" None (Some (clock w)) None
                               (Some reason)) id (db w)) w).
  destruct (send_callback_if_run target id "failed" None (Some reason) (clock w) w1)
    as (w' & Hrun & Hdb & Hq & Htr & Hck).
  assert (execute_finish cfg http_post id task (Raise e) w
          = match db w !! id with
            | Some _ => send_callback_if cfg http_post target id "failed" None
                          (Some reason) (clock w) w1
            | None => (Ok tt, with_db (db w1) w1)
            end) as Heq.
  { unfold execute_finish, try_except, execute_body.
    unfold bind at 1. unfold lift_outcome.
    assert (execute_handlers cfg http_post id task e
            = Some (bind utcnow (fun completed =>
                 let error_msg := "Task execution error: " +:+ exn_str e in
                 bind (await_db (update_status id "failed" None (Some completed) None
                                   (Some error_msg)))
                   (fun _ => bind (await_db (get_task id)) (fun again =>
                      match again with
                      | Some task' =>
                          send_callback_if cfg http_post (callback_url task') id
                            "failed" None (Some error_msg) completed
                      | None => ret tt
                      end))))) as ->
      by (destruct e; try reflexivity; congruence).
    unfold bind, utcnow, await_db, update_status, get_task, ret. simpl.
    rewrite lookup_alter_eq. subst target.
    destruct (db w !! id) as [t0 |]; reflexivity. }
  rewrite Heq.
  destruct (db w !! id) as [t0 |] eqn:Hrow.
  - exists w'. split; [exact Hrun |]. tauto.
  - exists (with_db (db w1) w1). split; [reflexivity |].
    subst target. simpl. rewrite app_nil_r.
    unfold same_queue_state. simpl. repeat split; try reflexivity. lia.
Qed.
End Execution.

Lemma forget_callback_fields (t t' : Task) :
  forget_callback t' = forget_callback t →
  status t' = status t ∧ result t' = result t ∧ error t' = error t ∧
  started_at t' = started_at t ∧ completed_at t' = completed_at t ∧
  created_at t' = created_at t ∧ callback_url t' = callback_url t ∧
  timeout t' = timeout t.
Proof.
  unfold forget_callback, set_callback_attempt. intros H.
  injection H as H1 H2 H3 H4 H5 H6 H7 H8 H9 H10 H11 H12. tauto.
Qed.

Lemma wait_for_exceeded (b : agent_behaviour) (limit : Z) :
  exceeds_timeout b limit → wait_for b limit = (Raise TimeoutError, limit).
Proof.
  destruct b as [d r | d c m |]; simpl; intros H; try reflexivity.
  - assert ((d <? limit) = false) as -> by (apply Z.ltb_ge; exact H). reflexivity.
  - assert ((d <? limit) = false) as -> by (apply Z.ltb_ge; exact H). reflexivity.
Qed.

Lemma delivery_events_first (cfg : config) (target : string)
    (payload : CallbackPayload) (first : Z) (m : nat) :
  ∃ rest, delivery_events cfg target payload first (S m)
          = EvPost target payload :: rest.
Proof.
  unfold delivery_events. destruct m as [| m].
  - exists []. reflexivity.
  - rewrite seqZ_cons by lia. simpl. eexists. reflexivity.
Qed.

Lemma posts_made_pos (cfg : config)
    (http_post : string → CallbackPayload → Z → option string)
    (target : string) (payload : CallbackPayload) :
  0 < WEBHOOK_RETRY_ATTEMPTS cfg →
  ∃ m, posts_made cfg http_post target payload = S m.
Proof.
  intros Hpos. unfold posts_made.
  destruct (Z.to_nat (WEBHOOK_RETRY_ATTEMPTS cfg)) as [| n] eqn:N; [lia |].
  destruct (attempts_made (http_post target payload) (S n) 0) as [| m] eqn:M.
  - exfalso. revert M. simpl. destruct (http_post target payload 0); discriminate.
  - exists m. reflexivity.
Qed.

Section ExecuteTask.
Context (cfg : config).
Context {json : Type}.
Context (json_loads : string → option json).
Context (json_truthy : json → bool).
Context (json_dumps_indent : json → string).
Context (http_post : string → CallbackPayload → Z → option string).

Local Abbreviation execute := (_execute_task cfg json_loads json_truthy json_dumps_indent http_post).
Local Abbreviation describe := (build_description json_loads json_truthy json_dumps_indent).

(** How [_execute_task] unfolds for a row that is in the table. *)
Lemma execute_task_found (b : agent_behaviour) (id : string) (task : Task) (w : world) :
  db w !! id = Some task →
  ∃ w1, db w1 = alter (set_status "running" (Some (clock w)) None None None) id (db w) ∧
    same_queue_state w w1 ∧
    trace w1 = trace w ++ [EvAgent id (describe task) (timeout task)] ∧
    clock w1 = clock w + Z.max 0 (wait_for b (timeout task)).2 ∧
    execute b id w
    = execute_finish cfg http_post id task (wait_for b (timeout task)).1 w1.
Proof.
  intros Hrow.
  destruct (execute_prelude_found json_loads json_truthy json_dumps_indent id task w Hrow)
    as (w0 & Hrun & Hdb & Hq & Htr & Hck).
  exists (advance (wait_for b (timeout task)).2 w0).
  split; [exact Hdb |]. split; [exact Hq |]. split; [exact Htr |].
  split; [simpl; lia |].
  unfold _execute_task, _run_browser_task, bind. rewrite Hrun.
  destruct (wait_for b (timeout task)) as [r waited]. reflexivity.
Qed.
End ExecuteTask.

(** C10: when the worker has dequeued an id that has no row, [_execute_task]
    returns at once and the world is as before: no agent call, no status
    written, no POST, the table unchanged. *)
Theorem execute_task_unknown_id (cfg : config) {json : Type}
    (json_loads : string → option json) (json_truthy : json → bool)
    (json_dumps_indent : json → string)
    (http_post : string → CallbackPayload → Z → option string)
    (b : agent_behaviour) (id : string) (w : world) :
  db w !! id = None →
  _execute_task cfg json_loads json_truthy json_dumps_indent http_post b id w
  = (Ok tt, w).
Proof.
  intros Hnone. unfold _execute_task, bind.
  rewrite execute_prelude_missing by exact Hnone. reflexivity.
Qed.

Lemma execute_task_unknown_id_witness :
  _execute_task defaults no_json_loads no_json_truthy no_json_dumps dead_endpoint
    (Finishes 1 "done") "ghost" sample_world
  = (Ok tt, sample_world).
Proof.
  apply execute_task_unknown_id. reflexivity.
Defined.

(** C2, as the code has it: when the agent does not finish within the
    task's timeout, [_execute_task] leaves the row with status [timeout],
    the error "Task exceeded timeout of N seconds" and [completed_at] the
    time of the timeout; and when the row has a callback URL, the webhook is
    POSTed with status [timeout], provided the configuration allows one
    attempt at least. *)
Theorem execute_task_timeout (cfg : config) {json : Type}
    (json_loads : string → option json) (json_truthy : json → bool)
    (json_dumps_indent : json → string)
    (http_post : string → CallbackPayload → Z → option string)
    (b : agent_behaviour) (id : string) (task : Task) (w : world) :
  db w !! id = Some task →
  exceeds_timeout b (timeout task) →
  let completed := clock w + Z.max 0 (timeout task) in
  let reason := "Task exceeded timeout of " +:+ pretty (timeout task) +:+ " seconds" in
  let payload := {| p_task_id := id; p_status := "timeout"; p_result := None;
                    p_error := Some reason; p_completed_at := completed |} in
  ∃ w' t',
    _execute_task cfg json_loads json_truthy json_dumps_indent http_post b id w
      = (Ok tt, w') ∧
    db w' !! id = Some t' ∧
    status t' = "timeout" ∧ error t' = Some reason ∧
    completed_at t' = Some completed ∧ started_at t' = Some (clock w) ∧
    result t' = result task ∧
    trace w' = trace w
                 ++ EvAgent id (build_description json_loads json_truthy
                                  json_dumps_indent task) (timeout task)
                 :: callback_events cfg http_post (callback_url task) payload ∧
    (truthy_opt (callback_url task) = true → 0 < WEBHOOK_RETRY_ATTEMPTS cfg →
     ∃ u rest, callback_url task = Some u ∧
       callback_events cfg http_post (callback_url task) payload
       = EvPost u payload :: rest) ∧
    (truthy_opt (callback_url task) = false →
     callback_events cfg http_post (callback_url task) payload = []).
Proof.
  intros Hrow Hexc completed reason payload.
  destruct (execute_task_found cfg json_loads json_truthy json_dumps_indent http_post
              b id task w Hrow) as (w1 & Hdb1 & Hq1 & Htr1 & Hck1 & Heq).
  rewrite (wait_for_exceeded b (timeout task) Hexc) in Heq, Hck1. simpl in Heq, Hck1.
  destruct (execute_finish_timeout cfg http_post id task w1)
    as (w' & Hrun & Hdb & Hq & Htr & Hck).
  assert (∃ t', db w' !! id = Some t' ∧
                forget_callback t'
                = forget_callback (set_status "timeout" None (Some (clock w1)) None
                     (Some reason)
                     (set_status "running" (Some (clock w)) None None None task)))
    as (t' & Hrow' & Hforget).
  { specialize (Hdb id). rewrite lookup_alter_eq, Hdb1, lookup_alter_eq, Hrow in Hdb.
    simpl in Hdb. destruct (db w' !! id) as [t' |]; [| discriminate].
    exists t'. split; [reflexivity |]. exact (inj Some _ _ Hdb). }
  apply forget_callback_fields in Hforget.
  destruct Hforget as (Hst & Hres & Herr & Hsa & Hca & _).
  exists w', t'. rewrite Heq. split; [exact Hrun |]. split; [exact Hrow' |].
  rewrite Hck1 in *.
  split; [exact Hst |]. split; [exact Herr |]. split; [exact Hca |].
  split; [exact Hsa |]. split; [exact Hres |].
  split.
  { rewrite Htr, Htr1, <- app_assoc. reflexivity. }
  split.
  - intros Htruthy Hpos. unfold callback_events.
    destruct (callback_url task) as [u |]; [| discriminate].
    simpl in Htruthy. rewrite Htruthy.
    destruct (posts_made_pos cfg http_post u payload Hpos) as (m & ->).
    destruct (delivery_events_first cfg u payload 0 m) as (rest & ->).
    exists u, rest. split; reflexivity.
  - intros Hfalsy. unfold callback_events.
    destruct (callback_url task) as [u |]; [| reflexivity].
    simpl in Hfalsy. rewrite Hfalsy. reflexivity.
Qed.

Lemma execute_task_timeout_witness :
  ∃ w' t',
    _execute_task defaults no_json_loads no_json_truthy no_json_dumps dead_endpoint
      Hangs "t" timeout_world = (Ok tt, w') ∧
    db w' !! "t" = Some t' ∧ status t' = "timeout" ∧
    error t' = Some "Task exceeded timeout of 30 seconds" ∧
    completed_at t' = Some 130.
Proof.
  destruct (execute_task_timeout defaults no_json_loads no_json_truthy no_json_dumps
              dead_endpoint Hangs "t" (callback_task "t" "queued") timeout_world
              ltac:(reflexivity) I)
    as (w' & t' & Hrun & Hrow & Hst & Herr & Hca & _).
  exists w', t'. repeat split; assumption.
Defined.

(** C2 as worded fails on the name of the status: the row and the webhook
    carry [timeout], not [timed_out]. *)
Lemma execute_task_timeout_status_name :
  ∃ w' t' rest,
    _execute_task defaults no_json_loads no_json_truthy no_json_dumps dead_endpoint
      Hangs "t" timeout_world = (Ok tt, w') ∧
    db w' !! "t" = Some t' ∧
    status t' = "timeout" ∧ status t' ≠ "timed_out" ∧
    trace w' = EvAgent "t" "fill in the form" 30
               :: EvPost "http://example/cb"
                    {| p_task_id := "t"; p_status := "timeout"; p_result := None;
                       p_error := Some "Task exceeded timeout of 30 seconds";
                       p_completed_at := 130 |}
               :: rest.
Proof.
  eexists _, _, _. split; [vm_compute; reflexivity |].
  split; [vm_compute; reflexivity |].
  split; [reflexivity |]. split; [discriminate |]. reflexivity.
Qed.

(** ** The worker loop *)

Lemma forget_callback_status (o1 o2 : option Task) :
  forget_callback <$> o1 = forget_callback <$> o2 → status <$> o1 = status <$> o2.
Proof.
  unfold forget_callback, set_callback_attempt.
  destruct o1, o2; simpl; congruence.
Qed.

Section Polling.
Context {json : Type}.
Context (json_loads : string → option json).
Context (json_truthy : json → bool).
Context (json_dumps_indent : json → string).

Local Abbreviation poll := (worker_poll json_loads json_truthy json_dumps_indent).
Local Abbreviation describe := (build_description json_loads json_truthy json_dumps_indent).

Lemma worker_poll_found (id : string) (rest : list string) (task : Task) (w : world) :
  worker_task w = Some AwaitQueue → queue w = id :: rest →
  db w !! id = Some task →
  worker_task (poll w) = Some (AwaitAgent id task) ∧
  db (poll w) = alter (set_status "running" (Some (clock w)) None None None) id (db w) ∧
  queue (poll w) = rest ∧ current_task_id (poll w) = Some id ∧
  running (poll w) = running w ∧
  trace (poll w) = trace w ++ [EvDequeue id; EvAgent id (describe task) (timeout task)] ∧
  clock (poll w) = clock w.
Proof.
  intros Hwt Hq Hrow. unfold worker_poll. rewrite Hwt, Hq.
  destruct (execute_prelude_found json_loads json_truthy json_dumps_indent id task
              (emit (EvDequeue id) (with_current (Some id) (with_queue rest w))) Hrow)
    as (w1 & -> & Hdb & (Hq1 & Hc1 & Hr1 & _) & Htr & Hck).
  simpl in *. rewrite <- app_assoc in Htr. tauto.
Qed.

Lemma worker_poll_missing (id : string) (rest : list string) (w : world) :
  worker_task w = Some AwaitQueue → queue w = id :: rest →
  db w !! id = None →
  worker_task (poll w) = Some (if running w then AwaitQueue else Finished) ∧
  db (poll w) = db w ∧
  queue (poll w) = rest ∧ current_task_id (poll w) = None ∧
  running (poll w) = running w ∧
  trace (poll w) = trace w ++ [EvDequeue id] ∧
  clock (poll w) = clock w.
Proof.
  intros Hwt Hq Hrow. unfold worker_poll. rewrite Hwt, Hq.
  rewrite execute_prelude_missing by exact Hrow.
  simpl. tauto.
Qed.

Lemma worker_poll_idle (w : world) :
  worker_task w = Some AwaitQueue → queue w = [] →
  worker_task (poll w) = Some (if running w then AwaitQueue else Finished) ∧
  db (poll w) = db w ∧
  queue (poll w) = [] ∧ current_task_id (poll w) = current_task_id w ∧
  running (poll w) = running w ∧
  trace (poll w) = trace w ∧
  clock (poll w) = clock w + 1.
Proof.
  intros Hwt Hq. unfold worker_poll. rewrite Hwt, Hq. simpl. tauto.
Qed.

Lemma worker_poll_not_waiting (w : world) :
  worker_task w ≠ Some AwaitQueue → poll w = w.
Proof.
  intros Hwt. unfold worker_poll.
  destruct (worker_task w) as [[| |] |]; congruence.
Qed.
End Polling.

Section Resuming.
Context (cfg : config).
Context (http_post : string → CallbackPayload → Z → option string).

Local Abbreviation resume := (worker_resume cfg http_post).

(** The end of a round: the terminal update, then the whole delivery, and
    only then the top of the loop. *)
Lemma worker_resume_run (id : string) (task : Task) (r : outcome string)
    (waited : Z) (w : world) :
  worker_task w = Some (AwaitAgent id task) → r ≠ Raise CancelledError →
  ∃ st res err target,
    let completed := clock w + Z.max 0 waited in
    let payload := {| p_task_id := id; p_status := st; p_result := res;
                      p_error := err; p_completed_at := completed |} in
    terminal st ∧
    (∀ k, forget_callback <$> (db (resume r waited w) !! k)
          = forget_callback <$> (alter (set_status st None (Some completed) res err)
                                   id (db w) !! k)) ∧
    queue (resume r waited w) = queue w ∧
    current_task_id (resume r waited w) = None ∧
    running (resume r waited w) = running w ∧
    worker_task (resume r waited w)
      = Some (if running w then AwaitQueue else Finished) ∧
    trace (resume r waited w)
      = trace w ++ callback_events cfg http_post target payload ∧
    clock (resume r waited w)
      = completed + callback_time cfg http_post target payload.
Proof.
  intros Hwt Hnc. unfold worker_resume. rewrite Hwt.
  assert (∃ st res err target w',
            execute_finish cfg http_post id task r (advance waited w) = (Ok tt, w') ∧
            terminal st ∧
            (∀ k, forget_callback <$> (db w' !! k)
                  = forget_callback <$>
                      (alter (set_status st None (Some (clock (advance waited w))) res err)
                         id (db (advance waited w)) !! k)) ∧
            same_queue_state (advance waited w) w' ∧
            trace w' = trace (advance waited w) ++
                       callback_events cfg http_post target
                         {| p_task_id := id; p_status := st; p_result := res;
                            p_error := err;
                            p_completed_at := clock (advance waited w) |} ∧
            clock w' = clock (advance waited w) +
                       callback_time cfg http_post target
                         {| p_task_id := id; p_status := st; p_result := res;
                            p_error := err;
                            p_completed_at := clock (advance waited w) |})
    as (st & res & err & target & w' & Hrun & Hterm & Hdb & Hq & Htr & Hck).
  { destruct r as [x | e].
    - destruct (execute_finish_ok cfg http_post id task x (advance waited w))
        as (w' & H).
      exists "completed", (Some x), None, (callback_url task), w'.
      unfold terminal. tauto.
    - destruct (decide (e = TimeoutError)) as [-> | Hnt].
      + destruct (execute_finish_timeout cfg http_post id task (advance waited w))
          as (w' & H).
        eexists "timeout", None, (Some _), (callback_url task), w'.
        unfold terminal. split; [apply H |]. split; [tauto |]. apply H.
      + assert (e ≠ CancelledError) as Hne by congruence.
        destruct (execute_finish_error cfg http_post id task e (advance waited w)
                    Hnt Hne) as (w' & H).
        eexists "failed", None, (Some _), _, w'.
        unfold terminal. split; [apply H |]. split; [tauto |]. apply H. }
  exists st, res, err, target. rewrite Hrun.
  destruct Hq as (Hq1 & Hq2 & Hq3 & Hq4). simpl in *.
  cbn [after_execute]. unfold loop_head. simpl.
  rewrite Hq3. tauto.
Qed.

Lemma worker_resume_cancelled (id : string) (task : Task) (waited : Z) (w : world) :
  worker_task w = Some (AwaitAgent id task) →
  worker_task (resume (Raise CancelledError) waited w) = Some Finished ∧
  db (resume (Raise CancelledError) waited w) = db w ∧
  queue (resume (Raise CancelledError) waited w) = queue w ∧
  current_task_id (resume (Raise CancelledError) waited w) = current_task_id w ∧
  running (resume (Raise CancelledError) waited w) = running w ∧
  trace (resume (Raise CancelledError) waited w) = trace w ∧
  clock (resume (Raise CancelledError) waited w) = clock w + Z.max 0 waited.
Proof.
  intros Hwt. unfold worker_resume. rewrite Hwt.
  rewrite execute_finish_cancelled. simpl. tauto.
Qed.
End Resuming.

Lemma wait_for_not_cancelled (b : agent_behaviour) (limit : Z) :
  (wait_for b limit).1 ≠ Raise CancelledError.
Proof.
  destruct b as [d r | d c m |]; simpl; try discriminate;
    destruct (d <? limit); discriminate.
Qed.

Lemma reconciled_not_running (now : datetime) (s : store) (k : string) (t : Task) :
  (mark_incomplete_as_failed now s).2 !! k = Some t → status t ≠ "running".
Proof.
  simpl. rewrite lookup_fmap. destruct (s !! k) as [t0 |]; simpl; [| discriminate].
  intros [= <-] Hst.
  pose proof (fail_if_incomplete_status now t0) as Hn.
  assert (incomplete (fail_if_incomplete now t0) = true) as Ht
    by (apply incomplete_iff; right; exact Hst).
  congruence.
Qed.

Section Submission.
Context {json : Type} (json_dumps : json → string).

(** [POST /tasks] writes at most the new row, and nothing of the queue. *)
Lemma create_task_frame (request : @Models.TaskRequest json)
    (probe : Server.cdp_probe) (uuid : string) (w : world) :
  let w' := (Server.create_task json_dumps request probe uuid w).2 in
  queue w' = queue w ∧ current_task_id w' = current_task_id w ∧
  running w' = running w ∧ worker_task w' = worker_task w ∧
  trace w' = trace w ∧ clock w' = clock w ∧
  (∀ k t, db w' !! k = Some t → status t = "running" → db w !! k = Some t).
Proof.
  unfold Server.create_task.
  destruct probe as [code |]; [destruct (code =? 200) |]; simpl;
    try (repeat split; tauto).
  unfold bind, utcnow, await_db, Database.create_task, ret.
  destruct (db w !! uuid) as [t0 |] eqn:Hrow; simpl; [repeat split; tauto |].
  repeat split; try reflexivity.
  intros k t Hk Hst.
  destruct (decide (uuid = k)) as [<- | Hne].
  - rewrite lookup_insert_eq in Hk. injection Hk as <-. discriminate.
  - rewrite lookup_insert_ne in Hk by assumption. exact Hk.
Qed.
End Submission.

Section Invariant.
Context (cfg : config).
Context {json : Type}.
Context (json_loads : string → option json).
Context (json_truthy : json → bool).
Context (json_dumps_indent : json → string).
Context (json_dumps : json → string).
Context (http_post : string → CallbackPayload → Z → option string).

Local Abbreviation step :=
  (operation cfg json_loads json_truthy json_dumps_indent json_dumps http_post).

Lemma running_is_current_boot (disk : store) (now : datetime) :
  running_is_current (boot disk now).
Proof.
  split.
  - intros k t Hk Hst. exfalso.
    exact (reconciled_not_running now disk k t Hk Hst).
  - simpl. intros [H | (k & task & H)]; discriminate.
Qed.

Lemma running_is_current_one (w : world) :
  running_is_current w → at_most_one_running (db w).
Proof.
  intros [Hinv _] i j ti tj Hi Hj Hsi Hsj.
  destruct (Hinv i ti Hi Hsi) as (task & Hw).
  destruct (Hinv j tj Hj Hsj) as (task' & Hw').
  congruence.
Qed.

Lemma running_is_current_step (w w' : world) :
  running_is_current w → step w w' → running_is_current w'.
Proof.
  intros [Hrows Hlive] Hstep. destruct Hstep.
  - (* a submission *)
    destruct (create_task_frame json_dumps request probe uuid w)
      as (_ & _ & Hr & Hwt & _ & _ & Hdb).
    split.
    + intros k t Hk Hst. rewrite Hwt. eauto.
    + rewrite Hwt, Hr. exact Hlive.
  - (* an id is put on the queue *)
    split; [exact Hrows | exact Hlive].
  - (* the worker is started *)
    unfold start. destruct (running w) eqn:Hr.
    + split; [exact Hrows | intros _; exact Hr].
    + split; simpl.
      * intros k t Hk Hst. destruct (Hrows k t Hk Hst) as (task & Hw).
        assert (false = true) by (apply Hlive; eauto). discriminate.
      * reflexivity.
  - (* the worker wakes from the queue *)
    assert (worker_task w = Some AwaitQueue ∨ worker_task w ≠ Some AwaitQueue)
      as [Hwt | Hwt]
      by (destruct (worker_task w) as [[| |] |];
          [left; reflexivity | right; discriminate ..]);
      [| rewrite worker_poll_not_waiting by exact Hwt; split; assumption].
    assert (running w = true) as Hr by (apply Hlive; left; exact Hwt).
    assert (∀ k t, db w !! k = Some t → status t ≠ "running") as Hnone.
    { intros k t Hk Hst. destruct (Hrows k t Hk Hst) as (task & Hw). congruence. }
    destruct (queue w) as [| id rest] eqn:Hq.
    + destruct (worker_poll_idle json_loads json_truthy json_dumps_indent w Hwt Hq)
        as (Hw' & Hdb' & _ & _ & Hr' & _).
      split.
      * rewrite Hdb'. intros k t Hk Hst. exfalso. exact (Hnone k t Hk Hst).
      * rewrite Hr'. intros _. exact Hr.
    + destruct (db w !! id) as [task |] eqn:Hrow.
      * destruct (worker_poll_found json_loads json_truthy json_dumps_indent
                    id rest task w Hwt Hq Hrow)
          as (Hw' & Hdb' & _ & _ & Hr' & _).
        split.
        -- rewrite Hdb', Hw'. intros k t Hk Hst.
           destruct (decide (id = k)) as [<- | Hne]; [eauto |].
           rewrite lookup_alter_ne in Hk by assumption.
           exfalso. exact (Hnone k t Hk Hst).
        -- rewrite Hr'. intros _. exact Hr.
      * destruct (worker_poll_missing json_loads json_truthy json_dumps_indent
                    id rest w Hwt Hq Hrow)
          as (Hw' & Hdb' & _ & _ & Hr' & _).
        split.
        -- rewrite Hdb'. intros k t Hk Hst. exfalso. exact (Hnone k t Hk Hst).
        -- rewrite Hr'. intros _. exact Hr.
  - (* the agent call ends *)
    rename H into Hwt.
    destruct (worker_resume_run cfg http_post id task
                (wait_for b (timeout task)).1 (wait_for b (timeout task)).2 w Hwt
                (wait_for_not_cancelled b (timeout task)))
      as (st & res & err & target & Hterm & Hdb & _ & _ & Hr' & Hw' & _).
    assert (running w = true) as Hr by (apply Hlive; right; eauto).
    split.
    + intros k t Hk Hst. exfalso.
      pose proof (forget_callback_status _ _ (Hdb k)) as Hs.
      rewrite Hk in Hs. simpl in Hs.
      rewrite lookup_alter in Hs.
      destruct (decide (id = k)) as [<- | Hne].
      * destruct (db w !! id) as [t0 |]; simpl in Hs; [| discriminate].
        injection Hs as Hs. rewrite Hst in Hs.
        destruct Hterm as [-> | [-> | ->]]; discriminate.
      * destruct (db w !! k) as [t0 |] eqn:Hk0; simpl in Hs; [| discriminate].
        injection Hs as Hs.
        destruct (Hrows k t0 Hk0 ltac:(congruence)) as (task' & Hw0).
        congruence.
    + rewrite Hr'. intros _. exact Hr.
  - (* the table is reconciled *)
    split.
    + intros k t Hk Hst. exfalso.
      exact (reconciled_not_running (clock w) (db w) k t Hk Hst).
    + exact Hlive.
Qed.

Lemma running_is_current_reachable (w w' : world) :
  running_is_current w → rtc step w w' → running_is_current w'.
Proof.
  intros Hinv Hreach. induction Hreach as [| w w1 w2 Hstep _ IH]; [exact Hinv |].
  apply IH. exact (running_is_current_step w w1 Hinv Hstep).
Qed.
End Invariant.

(** C9: in every state that the process reaches from its start, where the
    table has just been reconciled, by submissions, ids put on the queue,
    the start of the worker, the steps of the worker and reconciliations, at
    most one row has status [running]. *)
Theorem at_most_one_task_running (cfg : config) {json : Type}
    (json_loads : string → option json) (json_truthy : json → bool)
    (json_dumps_indent : json → string) (json_dumps : json → string)
    (http_post : string → CallbackPayload → Z → option string)
    (disk : store) (now : datetime) (w : world) :
  rtc (operation cfg json_loads json_truthy json_dumps_indent json_dumps http_post)
      (boot disk now) w →
  at_most_one_running (db w).
Proof.
  intros Hreach.
  apply (running_is_current_one w).
  apply (running_is_current_reachable cfg json_loads json_truthy json_dumps_indent
           json_dumps http_post (boot disk now) w); [| exact Hreach].
  apply running_is_current_boot.
Qed.

Lemma at_most_one_task_running_witness :
  at_most_one_running
    (db (worker_poll no_json_loads no_json_truthy no_json_dumps
           (add_task "a" (start (boot sample_store 7))))) ∧
  status <$> (db (worker_poll no_json_loads no_json_truthy no_json_dumps
                    (add_task "a" (start (boot sample_store 7)))) !! "a")
  = Some "running".
Proof.
  split.
  - apply (at_most_one_task_running defaults no_json_loads no_json_truthy
             no_json_dumps no_json_dumps dead_endpoint sample_store 7).
    eapply rtc_l; [apply op_start |].
    eapply rtc_l; [apply (op_add_task _ _ _ _ _ _ "a") |].
    eapply rtc_l; [apply op_poll |].
    apply rtc_refl.
  - reflexivity.
Defined.

(** ** Stopping the worker *)

(** C6, as the code has it: [stop] while a task is executing cancels the
    worker where it waits for the agent. The call is abandoned, nothing is
    written for the task, whose row stays as it is, [running]; the loop ends
    at once and [stop] returns with the worker finished. The row is turned
    to [failed] by the reconciliation of the next start only. *)
Theorem stop_cancels_execution (cfg : config)
    (http_post : string → CallbackPayload → Z → option string)
    (id : string) (task : Task) (w : world) :
  worker_task w = Some (AwaitAgent id task) →
  worker_task (stop cfg http_post w) = Some Finished ∧
  running (stop cfg http_post w) = false ∧
  db (stop cfg http_post w) = db w ∧
  trace (stop cfg http_post w) = trace w ∧
  queue (stop cfg http_post w) = queue w ∧
  current_task_id (stop cfg http_post w) = current_task_id w ∧
  (∀ t, db w !! id = Some t → status t = "running" →
     (Server.startup (stop cfg http_post w)).2.(db) !! id
     = Some (set_status "failed" None (Some (clock w)) None
               (Some "Server restarted during execution") t)).
Proof.
  intros Hwt. unfold stop. simpl. rewrite Hwt.
  destruct (worker_resume_cancelled cfg http_post id task 0 (with_running false w) Hwt)
    as (Hw' & Hdb' & Hq' & Hc' & Hr' & Htr' & Hck').
  remember (worker_resume cfg http_post (Raise CancelledError) 0
              (with_running false w)) as w' eqn:Ew'.
  simpl in Hdb', Hq', Hc', Hr', Htr', Hck'.
  split; [exact Hw' |]. split; [exact Hr' |]. split; [exact Hdb' |].
  split; [exact Htr' |]. split; [exact Hq' |]. split; [exact Hc' |].
  intros t Hrow Hst.
  unfold Server.startup, bind, utcnow, await_db, init_database, mark_incomplete_as_failed.
  assert (clock w' = clock w) as Hck by lia.
  simpl. rewrite lookup_fmap, Hdb', Hrow, Hck. simpl.
  unfold fail_if_incomplete.
  assert (incomplete t = true) as -> by (apply incomplete_iff; right; exact Hst).
  reflexivity.
Qed.

Lemma stop_cancels_execution_witness :
  let w := worker_poll no_json_loads no_json_truthy no_json_dumps queued_world in
  worker_task (stop defaults dead_endpoint w) = Some Finished ∧
  db (stop defaults dead_endpoint w) = db w.
Proof.
  intros w.
  destruct (stop_cancels_execution defaults dead_endpoint "t"
              (callback_task "t" "queued") w ltac:(reflexivity))
    as (Hw & _ & Hdb & _).
  split; [exact Hw | exact Hdb].
Defined.

(** C6 as worded fails: the worker has taken "t" and waits for the agent
    when [stop] is called; afterwards the loop has ended and the row of "t"
    is still [running], with no result, error or completion time. *)
Lemma stop_leaves_task_running :
  let w := stop defaults dead_endpoint
             (worker_poll no_json_loads no_json_truthy no_json_dumps queued_world) in
  worker_task w = Some Finished ∧
  ∃ t, db w !! "t" = Some t ∧ status t = "running" ∧
       result t = None ∧ error t = None ∧ completed_at t = None ∧
       ¬ terminal (status t).
Proof.
  split; [reflexivity |].
  eexists. split; [vm_compute; reflexivity |].
  repeat split. intros [H | [H | H]]; discriminate.
Qed.

(** ** Delivery and the next task *)




(** ** Submission *)



(** C1 at a submission that is accepted while the worker runs with an empty
    queue: the row is written with status [queued], the queue stays empty,
    and three rounds of the worker later the task has not been taken up. *)
Lemma accepted_submission_is_not_enqueued :
  let r := Server.post_tasks no_json_dumps sample_http_url tt (sample_body (Some 300))
             (Server.Responded 200) "u1" idle_world in
  r.1 = Ok {| r_task_id := "u1"; r_status := "queued"; r_queue_position := None;
              r_created_at := 100 |} ∧
  queue r.2 = [] ∧
  let w := _worker defaults no_json_loads no_json_truthy no_json_dumps
             dead_endpoint quick_agent 3 r.2 in
  (status <$> (db w !! "u1")) = Some "queued" ∧
  (started_at <$> (db w !! "u1")) = Some None ∧
  dequeued (trace w) = [] ∧ agent_calls (trace w) = [].
Proof.
  vm_compute. repeat split.
Qed.

(** ** The order of execution *)



Section Rounds.
Context (cfg : config).
Context {json : Type}.
Context (json_loads : string → option json).
Context (json_truthy : json → bool).
Context (json_dumps_indent : json → string).
Context (http_post : string → CallbackPayload → Z → option string).
Context (agent_run : string → string → agent_behaviour).

Local Abbreviation round :=
  (worker_round cfg json_loads json_truthy json_dumps_indent http_post agent_run).
Local Abbreviation rounds :=
  (_worker cfg json_loads json_truthy json_dumps_indent http_post agent_run).


End Rounds.

(** [add_task] puts the id at the tail and touches nothing else. *)
Lemma add_task_appends (id : string) (w : world) :
  queue (add_task id w) = queue w ++ [id] ∧ db (add_task id w) = db w ∧
  worker_task (add_task id w) = worker_task w ∧ running (add_task id w) = running w ∧
  get_queue_size (add_task id w) = get_queue_size w + 1.
Proof.
  unfold add_task, get_queue_size. simpl. rewrite length_app. simpl.
  repeat split. lia.
Qed.

(** * Further properties *)

(** ** Submitting and reading back *)



(** X1: a submission that [POST /tasks] accepts can be read back at once:
    the response carries the new id, [queued] and the time of the request,
    and [GET /tasks/{id}] then returns the task as [queued] with the URL and
    the description of the validated request and with no result, error,
    start or completion time; before the submission the id gave 404, and
    what [GET] returns for every other id is as before. *)
Theorem submitted_task_is_retrievable {json : Type} (json_dumps : json → string)
    (http_url : string → option string) (empty_dict : json)
    (b : @Models.body json) (probe : Server.cdp_probe) (uuid : string)
    (w w' : world) (response : TaskResponse) :
  Server.post_tasks json_dumps http_url empty_dict b probe uuid w = (Ok response, w') →
  ∃ request,
    Models.validate http_url empty_dict b = Ok request ∧
    response = {| r_task_id := uuid; r_status := "queued"; r_queue_position := None;
                  r_created_at := clock w |} ∧
    (Server.get_task uuid w).1 = Raise (HTTPException 404) ∧
    (Server.get_task uuid w').1
    = Ok {| ts_task_id := uuid; ts_status := "queued";
            ts_url := Some (Models.url request);
            ts_task_description := Some (Models.task_description request);
            ts_result := None; ts_error := None;
            ts_created_at := clock w;
            ts_started_at := None; ts_completed_at := None |} ∧
    (∀ k, k ≠ uuid → (Server.get_task k w').1 = (Server.get_task k w).1).
Proof.
  unfold Server.post_tasks, bind, lift_outcome.
  destruct (Models.validate http_url empty_dict b) as [request | e] eqn:Hv;
    [| discriminate].
  unfold Server.create_task.
  destruct probe as [code |]; [| discriminate].
  destruct (code =? 200); simpl; [| discriminate].
  unfold bind, utcnow, await_db, Database.create_task, ret.
  destruct (db w !! uuid) as [t0 |] eqn:Hrow; simpl; [discriminate |].
  intros [= <- <-]. exists request. split; [reflexivity |]. split; [reflexivity |].
  unfold Server.get_task, bind, await_db, get_task, lift_outcome, ret. simpl.
  rewrite Hrow, lookup_insert_eq. split; [reflexivity |]. split; [reflexivity |].
  intros k Hne. rewrite lookup_insert_ne by congruence.
  destruct (db w !! k); reflexivity.
Qed.

Lemma submitted_task_is_retrievable_witness :
  ∃ w', Server.post_tasks no_json_dumps sample_http_url tt (sample_body (Some 300))
          (Server.Responded 200) "u1" idle_world
        = (Ok {| r_task_id := "u1"; r_status := "queued"; r_queue_position := None;
                 r_created_at := 100 |}, w') ∧
    (ts_status <$> match (Server.get_task "u1" w').1 with
                   | Ok ts => Some ts
                   | Raise _ => None
                   end) = Some "queued".
Proof.
  eexists. split; [vm_compute; reflexivity |].
  match goal with |- context [Server.get_task "u1" ?w'] =>
    destruct (submitted_task_is_retrievable no_json_dumps sample_http_url tt
                (sample_body (Some 300)) (Server.Responded 200) "u1" idle_world w'
                {| r_task_id := "u1"; r_status := "queued"; r_queue_position := None;
                   r_created_at := 100 |} ltac:(vm_compute; reflexivity))
      as (request & _ & _ & _ & -> & _)
  end.
  reflexivity.
Defined.



(** ** The table: deleting, reconciling twice, listing *)

(** X3: [delete_task] returns [True] exactly when the id had a row, removes
    that row and no other, and a second deletion returns [False] and changes
    nothing; deleting a row right after its creation under a new id gives
    the table back as it was. *)
Theorem delete_task_removes_one_row {json : Type} (json_dumps : json → string)
    (id : string) (s : store) :
  ∃ s', delete_task id s = (Ok (bool_decide (is_Some (s !! id))), s') ∧
    s' !! id = None ∧
    (∀ k, k ≠ id → s' !! k = s !! k) ∧
    delete_task id s' = (Ok false, s') ∧
    (∀ u d (f : json) cb t now, s !! id = None →
       ∃ c s1, create_task json_dumps id u d f cb t now s = (Ok c, s1) ∧
               delete_task id s1 = (Ok true, s)).
Proof.
  exists (delete id s). split; [reflexivity |].
  split; [apply lookup_delete_eq |].
  split; [intros k Hne; apply lookup_delete_ne; congruence |].
  split.
  - unfold delete_task. rewrite lookup_delete_eq.
    rewrite bool_decide_eq_false_2 by (intros [? ?]; discriminate).
    rewrite delete_id by apply lookup_delete_eq. reflexivity.
  - intros u d f cb t now Hnone. unfold create_task, delete_task. rewrite Hnone.
    eexists _, _. split; [reflexivity |].
    rewrite lookup_insert_eq, bool_decide_eq_true_2 by eauto.
    rewrite delete_insert_id by exact Hnone. reflexivity.
Qed.

(** X4: reconciliation is idempotent: run again, at any later time, it
    changes nothing, and the completion times written by the first run
    stay. *)
Theorem mark_incomplete_as_failed_twice (now later : datetime) (s : store) :
  mark_incomplete_as_failed later (mark_incomplete_as_failed now s).2
  = (Ok tt, (mark_incomplete_as_failed now s).2).
Proof.
  unfold mark_incomplete_as_failed. simpl. f_equal.
  apply map_eq. intros k. rewrite !lookup_fmap.
  destruct (s !! k) as [t |]; [| reflexivity]. simpl. f_equal.
  unfold fail_if_incomplete at 1.
  rewrite fail_if_incomplete_status. reflexivity.
Qed.










(** ** The other routes, and the key *)

(** X8: every submission that [POST /tasks] accepts adds exactly one row,
    under the new id, and changes nothing else of the process: the row is
    [queued], has no webhook attempt, carries its id, a timeout within
    [MIN_TASK_TIMEOUT] and [MAX_TASK_TIMEOUT] and a description of 10 to
    2000 characters, and the form data as JSON text. *)
Theorem accepted_submission_writes_one_row {json : Type} (json_dumps : json → string)
    (http_url : string → option string) (empty_dict : json)
    (b : @Models.body json) (probe : Server.cdp_probe) (uuid : string)
    (w w' : world) (response : TaskResponse) :
  Server.post_tasks json_dumps http_url empty_dict b probe uuid w = (Ok response, w') →
  ∃ row,
    db w !! uuid = None ∧ db w' = <[uuid := row]> (db w) ∧
    queue w' = queue w ∧ current_task_id w' = current_task_id w ∧
    running w' = running w ∧ worker_task w' = worker_task w ∧
    clock w' = clock w ∧ trace w' = trace w ∧
    task_id row = uuid ∧ status row = "queued" ∧
    callback_attempts row = 0 ∧ last_callback_error row = None ∧
    MIN_TASK_TIMEOUT ≤ timeout row ≤ MAX_TASK_TIMEOUT ∧
    timeout row = default 300 (Models.b_timeout b) ∧
    10 ≤ Z.of_nat (String.length (task_description row)) ≤ 2000 ∧
    form_data row = Some (json_dumps (default empty_dict (Models.b_form_data b))).
Proof.
  unfold Server.post_tasks, bind, lift_outcome.
  destruct (Models.validate http_url empty_dict b) as [request | e] eqn:Hv;
    [| discriminate].
  assert (Models.valid_description (Models.task_description request) = true ∧
          Models.valid_timeout (Models.timeout request) = true ∧
          Models.timeout request = default 300 (Models.b_timeout b) ∧
          Models.form_data request = default empty_dict (Models.b_form_data b))
    as (Hd & Ht & Hdef & Hform).
  { revert Hv. unfold Models.validate.
    destruct (Models.b_url b ≫= http_url), (Models.b_task_description b);
      try discriminate.
    match goal with |- context [if ?c then _ else _] => destruct c eqn:Hc end;
      [| discriminate].
    intros [= <-]. simpl.
    apply andb_true_iff in Hc. destruct Hc as [Hc _].
    apply andb_true_iff in Hc. tauto. }
  unfold Server.create_task.
  destruct probe as [code |]; [| discriminate].
  destruct (code =? 200); simpl; [| discriminate].
  unfold bind, utcnow, await_db, Database.create_task, ret.
  destruct (db w !! uuid) as [t0 |] eqn:Hrow; simpl; [discriminate |].
  intros [= <- <-]. eexists. split; [reflexivity |]. split; [reflexivity |]. simpl.
  unfold Models.valid_description, Models.valid_timeout, MIN_TASK_TIMEOUT,
    MAX_TASK_TIMEOUT in *.
  apply andb_true_iff in Hd, Ht.
  rewrite !Z.leb_le in Hd, Ht. rewrite Hform, <- Hdef.
  repeat split; lia.
Qed.

Lemma accepted_submission_writes_one_row_witness :
  ∃ w' row,
    (Server.post_tasks no_json_dumps sample_http_url tt (sample_body None)
       (Server.Responded 200) "u1" idle_world).2 = w' ∧
    db w' = <["u1" := row]> sample_store ∧ timeout row = 300.
Proof.
  destruct (accepted_submission_writes_one_row no_json_dumps sample_http_url tt
              (sample_body None) (Server.Responded 200) "u1" idle_world
              (Server.post_tasks no_json_dumps sample_http_url tt (sample_body None)
                 (Server.Responded 200) "u1" idle_world).2
              {| r_task_id := "u1"; r_status := "queued"; r_queue_position := None;
                 r_created_at := 100 |} ltac:(reflexivity))
    as (row & _ & Hdb & _ & _ & _ & _ & _ & _ & _ & _ & _ & _ & _ & Ht & _).
  eexists _, row. split; [reflexivity |]. split; [exact Hdb | exact Ht].
Defined.


(** X10: with the key that the configuration has loaded, [validate_api_key]
    lets through exactly the requests whose [X-API-Key] header is that key,
    and answers 401 to all others; as the configuration refuses an empty
    key, a request with no header or an empty one is never let through. *)
Theorem api_key_is_required (env_file : string) (env : option string)
    (key : string) (header : option string) :
  load_API_SERVER_KEY env_file env = Ok key →
  env = Some key ∧ key ≠ "" ∧
  (header = Some key → Auth.validate_api_key key header = Ok key) ∧
  (header ≠ Some key → Auth.validate_api_key key header = Raise (HTTPException 401)) ∧
  Auth.validate_api_key key None = Raise (HTTPException 401) ∧
  Auth.validate_api_key key (Some "") = Raise (HTTPException 401).
Proof.
  unfold load_API_SERVER_KEY.
  destruct env as [k |]; [| discriminate].
  destruct (truthy k) eqn:Hk; [| discriminate].
  intros [= ->].
  assert (key ≠ "") as Hne by (intros ->; discriminate).
  split; [reflexivity |]. split; [exact Hne |].
  unfold Auth.validate_api_key.
  split; [intros ->; rewrite String.eqb_refl; reflexivity |].
  split.
  - intros Hh. destruct header as [h |]; [| reflexivity].
    destruct (String.eqb_spec h key) as [-> | Hneq]; [congruence | reflexivity].
  - split; [reflexivity |].
    destruct (String.eqb_spec "" key) as [<- | Hneq]; [congruence | reflexivity].
Qed.

Lemma api_key_is_required_witness :
  Auth.validate_api_key "s3cret" (Some "s3cret") = Ok "s3cret" ∧
  Auth.validate_api_key "s3cret" (Some "") = Raise (HTTPException 401).
Proof.
  destruct (api_key_is_required "/home/api/.browser-use.env" (Some "s3cret") "s3cret"
              (Some "s3cret") ltac:(reflexivity))
    as (_ & _ & Hok & _ & _ & Hempty).
  split; [apply Hok; reflexivity | exact Hempty].
Defined.

(** ** The other two ends of a task *)

Lemma wait_for_finished (d : Z) (res : string) (limit : Z) :
  d < limit → wait_for (Finishes d res) limit = (Ok res, d).
Proof.
  intros H. simpl.
  assert ((d <? limit) = true) as -> by (apply Z.ltb_lt; exact H). reflexivity.
Qed.


Lemma callback_events_posts (cfg : config)
    (http_post : string → CallbackPayload → Z → option string)
    (target : option string) (payload : CallbackPayload) :
  (truthy_opt target = true → 0 < WEBHOOK_RETRY_ATTEMPTS cfg →
   ∃ u rest, target = Some u ∧
     callback_events cfg http_post target payload = EvPost u payload :: rest) ∧
  (truthy_opt target = false →
   callback_events cfg http_post target payload = []).
Proof.
  unfold callback_events. split.
  - intros Htruthy Hpos. destruct target as [u |]; [| discriminate].
    simpl in Htruthy. rewrite Htruthy.
    destruct (posts_made_pos cfg http_post u payload Hpos) as (m & ->).
    destruct (delivery_events_first cfg u payload 0 m) as (rest & ->).
    exists u, rest. split; reflexivity.
  - intros Hfalsy. destruct target as [u |]; [| reflexivity].
    simpl in Hfalsy. rewrite Hfalsy. reflexivity.
Qed.

Lemma send_callback_if_falsy (cfg : config)
    (http_post : string → CallbackPayload → Z → option string)
    (target : option string) (id st : string) (res err : option string)
    (completed : datetime) (w : world) :
  truthy_opt target = false →
  send_callback_if cfg http_post target id st res err completed w = (Ok tt, w).
Proof.
  intros H. unfold send_callback_if.
  destruct target as [u |]; [| reflexivity].
  simpl in H. rewrite H. reflexivity.
Qed.

(** X11: when the agent finishes within the task's timeout, [_execute_task]
    leaves the row [completed] with the agent's result, [started_at] the
    time the task was taken up and [completed_at] the time the agent was
    done; the error column is not written, so an error of an earlier run
    stays. With a callback URL the webhook is POSTed with status
    [completed] and the result; without one no POST is made and the webhook
    columns stay as they were. *)
Theorem execute_task_completed (cfg : config) {json : Type}
    (json_loads : string → option json) (json_truthy : json → bool)
    (json_dumps_indent : json → string)
    (http_post : string → CallbackPayload → Z → option string)
    (d : Z) (res : string) (id : string) (task : Task) (w : world) :
  db w !! id = Some task →
  d < timeout task →
  let completed := clock w + Z.max 0 d in
  let payload := {| p_task_id := id; p_status := "completed"; p_result := Some res;
                    p_error := None; p_completed_at := completed |} in
  ∃ w' t',
    _execute_task cfg json_loads json_truthy json_dumps_indent http_post
      (Finishes d res) id w = (Ok tt, w') ∧
    db w' !! id = Some t' ∧
    status t' = "completed" ∧ result t' = Some res ∧ error t' = error task ∧
    started_at t' = Some (clock w) ∧ completed_at t' = Some completed ∧
    trace w' = trace w
                 ++ EvAgent id (build_description json_loads json_truthy
                                  json_dumps_indent task) (timeout task)
                 :: callback_events cfg http_post (callback_url task) payload ∧
    (truthy_opt (callback_url task) = true → 0 < WEBHOOK_RETRY_ATTEMPTS cfg →
     ∃ u rest, callback_url task = Some u ∧
       callback_events cfg http_post (callback_url task) payload
       = EvPost u payload :: rest) ∧
    (truthy_opt (callback_url task) = false →
     callback_events cfg http_post (callback_url task) payload = [] ∧
     callback_attempts t' = callback_attempts task ∧
     last_callback_error t' = last_callback_error task ∧
     clock w' = completed).
Proof.
  intros Hrow Hd completed payload.
  destruct (execute_task_found cfg json_loads json_truthy json_dumps_indent http_post
              (Finishes d res) id task w Hrow) as (w1 & Hdb1 & Hq1 & Htr1 & Hck1 & Heq).
  rewrite (wait_for_finished d res (timeout task) Hd) in Heq, Hck1. simpl in Heq, Hck1.
  destruct (execute_finish_ok cfg http_post id task res w1)
    as (w' & Hrun & Hdb & Hq & Htr & Hck).
  assert (∃ t', db w' !! id = Some t' ∧
                forget_callback t'
                = forget_callback (set_status "completed" None (Some (clock w1))
                     (Some res) None
                     (set_status "running" (Some (clock w)) None None None task)))
    as (t' & Hrow' & Hforget).
  { specialize (Hdb id). rewrite lookup_alter_eq, Hdb1, lookup_alter_eq, Hrow in Hdb.
    simpl in Hdb. destruct (db w' !! id) as [t' |]; [| discriminate].
    exists t'. split; [reflexivity |]. exact (inj Some _ _ Hdb). }
  pose proof (forget_callback_fields _ _ Hforget)
    as (Hst & Hres & Herr & Hsa & Hca & _).
  exists w', t'. rewrite Heq. split; [exact Hrun |]. split; [exact Hrow' |].
  rewrite Hck1 in *.
  split; [exact Hst |]. split; [exact Hres |]. split; [exact Herr |].
  split; [exact Hsa |]. split; [exact Hca |].
  split; [rewrite Htr, Htr1, <- app_assoc; reflexivity |].
  destruct (callback_events_posts cfg http_post (callback_url task) payload)
    as [Hposts Hnone].
  split; [exact Hposts |].
  intros Hfalsy. split; [exact (Hnone Hfalsy) |].
  (* without a callback URL the delivery is no step at all *)
  revert Hrun. unfold execute_finish, try_except, execute_body.
  unfold bind at 1. unfold lift_outcome. unfold bind at 1. unfold utcnow.
  unfold bind. unfold await_db, update_status.
  rewrite send_callback_if_falsy by exact Hfalsy.
  intros [= <-]. simpl in Hrow'. rewrite Hdb1, !lookup_alter_eq, Hrow in Hrow'.
  simpl in Hrow'. injection Hrow' as <-. simpl.
  repeat split. lia.
Qed.

Lemma execute_task_completed_witness :
  ∃ w' t',
    _execute_task defaults no_json_loads no_json_truthy no_json_dumps dead_endpoint
      (Finishes 1 "done") "a" idle_world = (Ok tt, w') ∧
    db w' !! "a" = Some t' ∧ status t' = "completed" ∧ result t' = Some "done" ∧
    callback_attempts t' = 0.
Proof.
  destruct (execute_task_completed defaults no_json_loads no_json_truthy no_json_dumps
              dead_endpoint 1 "done" "a" (sample_task "a" "queued" None) idle_world
              ltac:(reflexivity) ltac:(simpl; lia))
    as (w' & t' & Hrun & Hrow & Hst & Hres & _ & _ & _ & _ & _ & Hnone).
  exists w', t'. repeat split; try assumption.
  apply Hnone. reflexivity.
Defined.



(** ** How long a delivery and a round take *)
















(** ** Stopping and starting again *)

(** X17: [stop] does not release the task in hand. When the worker is
    stopped while it executes a task and started again in the same process,
    it takes the next id off the queue and marks it [running] while the row
    of the abandoned task is [running] still: two rows are [running], and
    [current_task_id] names the new one only. *)
Theorem restart_after_stop_runs_beside_abandoned (cfg : config) {json : Type}
    (json_loads : string → option json) (json_truthy : json → bool)
    (json_dumps_indent : json → string)
    (http_post : string → CallbackPayload → Z → option string)
    (id next : string) (rest : list string) (task t t2 : Task) (w : world) :
  worker_task w = Some (AwaitAgent id task) →
  db w !! id = Some t → status t = "running" →
  queue w = next :: rest → next ≠ id → db w !! next = Some t2 →
  let w' := worker_poll json_loads json_truthy json_dumps_indent
              (start (stop cfg http_post w)) in
  db w' !! id = Some t ∧
  (∃ t2', db w' !! next = Some t2' ∧ status t2' = "running") ∧
  worker_task w' = Some (AwaitAgent next t2) ∧
  current_task_id w' = Some next ∧
  ¬ at_most_one_running (db w').
Proof.
  intros Hwt Hrow Hst Hq Hne Hrow2. cbn zeta.
  assert (worker_task (start (stop cfg http_post w)) = Some AwaitQueue ∧
          queue (start (stop cfg http_post w)) = next :: rest ∧
          db (start (stop cfg http_post w)) = db w) as (Hw1 & Hq1 & Hdb1).
  { unfold stop. simpl. rewrite Hwt.
    destruct (worker_resume_cancelled cfg http_post id task 0 (with_running false w) Hwt)
      as (_ & Hdb' & Hq' & _ & Hr' & _).
    unfold start. rewrite Hr'. simpl. rewrite Hdb', Hq'. simpl. tauto. }
  destruct (worker_poll_found json_loads json_truthy json_dumps_indent next rest t2
              _ Hw1 Hq1 ltac:(rewrite Hdb1; exact Hrow2))
    as (Hw2 & Hdb2 & _ & Hc2 & _).
  assert (db (worker_poll json_loads json_truthy json_dumps_indent
                (start (stop cfg http_post w))) !! id = Some t) as Hid.
  { rewrite Hdb2, lookup_alter_ne, Hdb1 by exact Hne. exact Hrow. }
  split; [exact Hid |].
  split.
  { rewrite Hdb2, lookup_alter_eq, Hdb1, Hrow2. eexists. split; reflexivity. }
  split; [exact Hw2 |]. split; [exact Hc2 |].
  intros Hone. apply Hne. symmetry.
  apply (Hone id next t
           (set_status "running" (Some (clock (start (stop cfg http_post w))))
              None None None t2));
    [exact Hid | | exact Hst | reflexivity].
  rewrite Hdb2, lookup_alter_eq, Hdb1, Hrow2. reflexivity.
Qed.

Lemma restart_after_stop_runs_beside_abandoned_witness :
  let w := worker_poll no_json_loads no_json_truthy no_json_dumps queued_world in
  let w' := worker_poll no_json_loads no_json_truthy no_json_dumps
              (start (stop defaults dead_endpoint w)) in
  (status <$> (db w' !! "t")) = Some "running" ∧
  (status <$> (db w' !! "a")) = Some "running".
Proof.
  intros w w'.
  destruct (restart_after_stop_runs_beside_abandoned defaults no_json_loads
              no_json_truthy no_json_dumps dead_endpoint "t" "a" []
              (callback_task "t" "queued")
              (set_status "running" (Some 100) None None None (callback_task "t" "queued"))
              (sample_task "a" "queued" None) w
              ltac:(reflexivity) ltac:(reflexivity) ltac:(reflexivity)
              ltac:(reflexivity) ltac:(discriminate) ltac:(reflexivity))
    as (Hid & (t2' & Hnext & Hst) & _).
  fold w' in Hid, Hnext. rewrite Hid, Hnext. simpl. rewrite Hst.
  split; reflexivity.
Defined.

(** ** What no operation does *)

Lemma forget_callback_request (t t' : Task) :
  forget_callback t' = forget_callback t → same_request t t'.
Proof.
  unfold forget_callback, set_callback_attempt, same_request. intros H.
  injection H as H1 H2 H3 H4 H5 H6 H7 H8 H9 H10 H11 H12. tauto.
Qed.

Lemma same_request_refl (t : Task) : same_request t t.
Proof. unfold same_request. tauto. Qed.

Lemma same_request_trans (t1 t2 t3 : Task) :
  same_request t1 t2 → same_request t2 t3 → same_request t1 t3.
Proof. unfold same_request. intuition congruence. Qed.

Lemma rows_kept_same_db (w w' : world) : db w' = db w → rows_kept w w'.
Proof.
  intros Hdb k t Hk. exists t. rewrite Hdb. split; [exact Hk | apply same_request_refl].
Qed.

Lemma rows_kept_alter_status (w w' : world) (id st : string)
    (sa ca : option datetime) (res err : option string) :
  (∀ k, forget_callback <$> (db w' !! k)
        = forget_callback <$> (alter (set_status st sa ca res err) id (db w) !! k)) →
  rows_kept w w'.
Proof.
  intros Hdb k t Hk. specialize (Hdb k). rewrite lookup_alter in Hdb.
  destruct (decide (id = k)) as [<- | Hne]; rewrite Hk in Hdb; simpl in Hdb;
    destruct (db w' !! _) as [t' |]; try discriminate;
    exists t'; (split; [reflexivity |]);
    apply (inj Some) in Hdb; apply forget_callback_request in Hdb; exact Hdb.
Qed.

Lemma stop_keeps_table (cfg : config)
    (http_post : string → CallbackPayload → Z → option string) (w : world) :
  db (stop cfg http_post w) = db w.
Proof.
  unfold stop. simpl.
  destruct (worker_task w) as [[| id task |] |] eqn:Hwt; try reflexivity.
  destruct (worker_resume_cancelled cfg http_post id task 0 (with_running false w) Hwt)
    as (_ & Hdb & _).
  exact Hdb.
Qed.

Section Kept.
Context (cfg : config).
Context {json : Type}.
Context (json_loads : string → option json).
Context (json_truthy : json → bool).
Context (json_dumps_indent : json → string).
Context (json_dumps : json → string).
Context (http_post : string → CallbackPayload → Z → option string).

Lemma operation_keeps_rows (w w' : world) :
  operation cfg json_loads json_truthy json_dumps_indent json_dumps http_post w w' →
  rows_kept w w'.
Proof.
  intros Hstep. destruct Hstep.
  - (* a submission *)
    intros k t Hk. exists t. split; [| apply same_request_refl].
    unfold Server.create_task.
    destruct probe as [code |]; [destruct (code =? 200) |]; simpl; try exact Hk.
    unfold bind, utcnow, await_db, Database.create_task, ret.
    destruct (db w !! uuid) as [t0 |] eqn:Hrow; simpl; [exact Hk |].
    rewrite lookup_insert_ne by congruence. exact Hk.
  - apply rows_kept_same_db. reflexivity.
  - apply rows_kept_same_db. unfold start. destruct (running w); reflexivity.
  - (* the worker wakes from the queue *)
    assert (worker_task w = Some AwaitQueue ∨ worker_task w ≠ Some AwaitQueue)
      as [Hwt | Hwt]
      by (destruct (worker_task w) as [[| |] |];
          [left; reflexivity | right; discriminate ..]);
      [| rewrite worker_poll_not_waiting by exact Hwt;
         apply rows_kept_same_db; reflexivity].
    destruct (queue w) as [| id rest] eqn:Hq.
    + apply rows_kept_same_db.
      apply (worker_poll_idle json_loads json_truthy json_dumps_indent w Hwt Hq).
    + destruct (db w !! id) as [task |] eqn:Hrow.
      * destruct (worker_poll_found json_loads json_truthy json_dumps_indent
                    id rest task w Hwt Hq Hrow) as (_ & Hdb & _).
        apply (rows_kept_alter_status w _ id "running" (Some (clock w)) None None None).
        intros k. rewrite Hdb. reflexivity.
      * apply rows_kept_same_db.
        apply (worker_poll_missing json_loads json_truthy json_dumps_indent
                 id rest w Hwt Hq Hrow).
  - (* the agent call ends *)
    destruct (worker_resume_run cfg http_post id task
                (wait_for b (timeout task)).1 (wait_for b (timeout task)).2 w H
                (wait_for_not_cancelled b (timeout task)))
      as (st & res & err & target & _ & Hdb & _).
    exact (rows_kept_alter_status w _ id st None _ res err Hdb).
  - (* the table is reconciled *)
    intros k t Hk. simpl. rewrite lookup_fmap, Hk. simpl.
    eexists. split; [reflexivity |].
    unfold fail_if_incomplete, same_request.
    destruct (incomplete t); simpl; tauto.
Qed.

Lemma action_keeps_rows (w w' : world) :
  action cfg json_loads json_truthy json_dumps_indent json_dumps http_post w w' →
  rows_kept w w'.
Proof.
  intros [w0 w1 Hop | w0].
  - exact (operation_keeps_rows w0 w1 Hop).
  - apply rows_kept_same_db. apply stop_keeps_table.
Qed.
End Kept.

(** X18: no operation of the process removes a row or rewrites what the
    caller supplied. Whatever submissions, ids put on the queue, starts and
    stops of the worker, steps of the worker and reconciliations happen, a
    row that is in the table stays in it under its key with the same task
    id, URL, description, form data, callback URL, timeout and creation
    time. *)
Theorem rows_keep_their_request (cfg : config) {json : Type}
    (json_loads : string → option json) (json_truthy : json → bool)
    (json_dumps_indent : json → string) (json_dumps : json → string)
    (http_post : string → CallbackPayload → Z → option string)
    (w w' : world) (k : string) (t : Task) :
  rtc (action cfg json_loads json_truthy json_dumps_indent json_dumps http_post) w w' →
  db w !! k = Some t →
  ∃ t', db w' !! k = Some t' ∧ same_request t t'.
Proof.
  intros Hreach. revert t. induction Hreach as [w | w w1 w2 Hstep _ IH]; intros t Hk.
  - exists t. split; [exact Hk | apply same_request_refl].
  - destruct (action_keeps_rows cfg json_loads json_truthy json_dumps_indent json_dumps
                http_post w w1 Hstep k t Hk) as (t1 & Hk1 & Hs1).
    destruct (IH t1 Hk1) as (t2 & Hk2 & Hs2).
    exists t2. split; [exact Hk2 | exact (same_request_trans _ _ _ Hs1 Hs2)].
Qed.

Lemma rows_keep_their_request_witness :
  ∃ t', db (stop defaults dead_endpoint
              (worker_poll no_json_loads no_json_truthy no_json_dumps queued_world))
          !! "t" = Some t' ∧
        same_request (callback_task "t" "queued") t'.
Proof.
  apply (rows_keep_their_request defaults no_json_loads no_json_truthy no_json_dumps
           no_json_dumps dead_endpoint queued_world).
  - eapply rtc_l; [apply act_operation, op_poll |].
    eapply rtc_l; [apply act_stop |].
    apply rtc_refl.
  - reflexivity.
Defined.

(** ** One round, one row *)

Lemma touches_ret {A : Type} (id : string) (a : A) : touches_only id (ret a).
Proof. intros w k _. reflexivity. Qed.

Lemma touches_lift {A : Type} (id : string) (r : outcome A) :
  touches_only id (lift_outcome r).
Proof. intros w k _. reflexivity. Qed.

Lemma touches_bind {A B : Type} (id : string) (m : M A) (f : A → M B) :
  touches_only id m → (∀ a, touches_only id (f a)) → touches_only id (bind m f).
Proof.
  intros Hm Hf w k Hne. unfold bind. specialize (Hm w k Hne).
  destruct (m w) as [[a | e] w1]; simpl in *; [| exact Hm].
  rewrite (Hf a w1 k Hne). exact Hm.
Qed.

Lemma touches_try {A : Type} (id : string) (body : M A) (handler : exn → option (M A)) :
  touches_only id body → (∀ e h, handler e = Some h → touches_only id h) →
  touches_only id (try_except body handler).
Proof.
  intros Hb Hh w k Hne. unfold try_except. specialize (Hb w k Hne).
  destruct (body w) as [[a | e] w1]; simpl in *; [exact Hb |].
  destruct (handler e) as [h |] eqn:E; [| exact Hb].
  rewrite (Hh e h E w1 k Hne). exact Hb.
Qed.

Lemma touches_utcnow (id : string) : touches_only id utcnow.
Proof. intros w k _. reflexivity. Qed.

Lemma touches_log (id : string) (e : event) : touches_only id (log e).
Proof. intros w k _. reflexivity. Qed.

Lemma touches_sleep (id : string) (seconds : Z) : touches_only id (sleep seconds).
Proof. intros w k _. reflexivity. Qed.

Lemma touches_get_task (id id' : string) : touches_only id (await_db (get_task id')).
Proof. intros w k _. reflexivity. Qed.

Lemma touches_update_status (id st : string) (sa ca : option datetime)
    (res err : option string) :
  touches_only id (await_db (update_status id st sa ca res err)).
Proof.
  intros w k Hne. unfold await_db, update_status. simpl.
  apply lookup_alter_ne. congruence.
Qed.

Lemma touches_update_callback_attempt (id : string) (n : Z) (err : option string) :
  touches_only id (await_db (update_callback_attempt id n err)).
Proof.
  intros w k Hne. unfold await_db, update_callback_attempt. simpl.
  apply lookup_alter_ne. congruence.
Qed.

Section OneRow.
Context (cfg : config).
Context (http_post : string → CallbackPayload → Z → option string).

Lemma touches_callback_loop (id target : string) (payload : CallbackPayload)
    (n : nat) (a : Z) :
  touches_only id (callback_loop cfg http_post id target payload n a).
Proof.
  revert a. induction n as [| n IH]; intros a; [apply touches_ret |].
  cbn [callback_loop]. apply touches_bind.
  - unfold callback_attempt. apply touches_bind; [apply touches_log |]. intros _.
    destruct (http_post target payload a) as [e |].
    + apply touches_bind; [apply touches_update_callback_attempt |]. intros _.
      apply touches_bind; [| intros _; apply touches_ret].
      destruct (a <? WEBHOOK_RETRY_ATTEMPTS cfg - 1);
        [apply touches_sleep | apply touches_ret].
    + apply touches_bind; [apply touches_update_callback_attempt |]. intros _.
      apply touches_ret.
  - intros [|]; [apply touches_ret | apply IH].
Qed.

Lemma touches_send_callback_if (target : option string) (id st : string)
    (res err : option string) (completed : datetime) :
  touches_only id (send_callback_if cfg http_post target id st res err completed).
Proof.
  unfold send_callback_if.
  destruct target as [u |]; [destruct (truthy u) |]; try apply touches_ret.
  apply touches_callback_loop.
Qed.

Lemma touches_execute_finish (id : string) (task : Task) (r : outcome string) :
  touches_only id (execute_finish cfg http_post id task r).
Proof.
  unfold execute_finish. apply touches_try.
  - unfold execute_body.
    apply touches_bind; [apply touches_lift |]. intros res.
    apply touches_bind; [apply touches_utcnow |]. intros completed.
    apply touches_bind; [apply touches_update_status |]. intros _.
    apply touches_send_callback_if.
  - intros e h Hh.
    assert (∀ x, touches_only id
              (bind utcnow (λ completed,
                 bind (await_db (update_status id "failed" None (Some completed) None
                                   (Some ("Task execution error: " +:+ x))))
                   (λ _, bind (await_db (get_task id)) (λ again,
                      match again with
                      | Some task' =>
                          send_callback_if cfg http_post (callback_url task') id
                            "failed" None (Some ("Task execution error: " +:+ x))
                            completed
                      | None => ret tt
                      end))))) as Hfailed.
    { intros x. apply touches_bind; [apply touches_utcnow |]. intros completed.
      apply touches_bind; [apply touches_update_status |]. intros _.
      apply touches_bind; [apply touches_get_task |]. intros [task' |];
        [apply touches_send_callback_if | apply touches_ret]. }
    destruct e; simpl in Hh; try discriminate; injection Hh as <-;
      try apply Hfailed.
    apply touches_bind; [apply touches_utcnow |]. intros completed.
    apply touches_bind; [apply touches_update_status |]. intros _.
    apply touches_send_callback_if.
Qed.
End OneRow.

Lemma touches_execute_prelude {json : Type} (json_loads : string → option json)
    (json_truthy : json → bool) (json_dumps_indent : json → string) (id : string) :
  touches_only id (execute_prelude json_loads json_truthy json_dumps_indent id).
Proof.
  unfold execute_prelude.
  apply touches_bind; [apply touches_utcnow |]. intros started.
  apply touches_bind; [apply touches_get_task |]. intros [task |];
    [| apply touches_ret].
  apply touches_bind; [apply touches_update_status |]. intros _.
  apply touches_bind; [apply touches_log |]. intros _. apply touches_ret.
Qed.

Lemma after_execute_table (r : outcome unit) (w : world) :
  db (after_execute r w) = db w.
Proof. destruct r as [u | []]; reflexivity. Qed.

(** X19: a task is executed on its own row. Whatever the agent and the
    endpoint do, [_execute_task] for an id, and a whole round of the worker
    that finds the id at the head of the queue, leave every other row of the
    table exactly as it was, webhook columns included. *)
Theorem round_touches_one_row (cfg : config) {json : Type}
    (json_loads : string → option json) (json_truthy : json → bool)
    (json_dumps_indent : json → string)
    (http_post : string → CallbackPayload → Z → option string)
    (agent_run : string → string → agent_behaviour) (b : agent_behaviour)
    (id : string) (rest : list string) (w : world) (k : string) :
  k ≠ id →
  db (_execute_task cfg json_loads json_truthy json_dumps_indent http_post b id w).2 !! k
  = db w !! k ∧
  (worker_task w = Some AwaitQueue → queue w = id :: rest →
   db (worker_round cfg json_loads json_truthy json_dumps_indent http_post
         agent_run w) !! k = db w !! k).
Proof.
  intros Hne. split.
  - assert (touches_only id
              (_execute_task cfg json_loads json_truthy json_dumps_indent http_post b id))
      as Htouch; [| exact (Htouch w k Hne)].
    unfold _execute_task. apply touches_bind; [apply touches_execute_prelude |].
    intros [task |]; [| apply touches_ret].
    destruct (_run_browser_task b (timeout task)) as [r waited].
    intros w0 k0 Hk0.
    exact (touches_execute_finish cfg http_post id task r (advance waited w0) k0 Hk0).
  - intros Hwt Hq. unfold worker_round.
    assert (db (worker_poll json_loads json_truthy json_dumps_indent w) !! k = db w !! k
            ∧ ∀ id' task, worker_task (worker_poll json_loads json_truthy
                                         json_dumps_indent w)
                          = Some (AwaitAgent id' task) → id' = id) as [Hpoll Hsame].
    { unfold worker_poll. rewrite Hwt, Hq.
      pose proof (touches_execute_prelude json_loads json_truthy json_dumps_indent id
                    (emit (EvDequeue id) (with_current (Some id) (with_queue rest w)))
                    k Hne) as Hp.
      destruct (execute_prelude json_loads json_truthy json_dumps_indent id
                  (emit (EvDequeue id) (with_current (Some id) (with_queue rest w))))
        as [[[task |] | e] w2]; simpl in Hp.
      - split; [exact Hp |]. simpl. intros id' task' [= <- _]. reflexivity.
      - split; [rewrite after_execute_table; exact Hp |].
        simpl. unfold loop_head. simpl. intros id' task'.
        destruct (running w2); discriminate.
      - split; [rewrite after_execute_table; exact Hp |].
        intros id' task'. destruct e; simpl; unfold loop_head; simpl;
          try (destruct (running w2); discriminate); discriminate. }
    destruct (worker_task (worker_poll json_loads json_truthy json_dumps_indent w))
      as [[| id' task |] |] eqn:Hw1; try exact Hpoll.
    assert (id' = id) as -> by (apply (Hsame id' task); reflexivity).
    destruct (_run_browser_task
                (agent_run id (build_description json_loads json_truthy
                                 json_dumps_indent task)) (timeout task))
      as [r waited].
    unfold worker_resume. rewrite Hw1.
    pose proof (touches_execute_finish cfg http_post id task r
                  (advance waited (worker_poll json_loads json_truthy
                                     json_dumps_indent w)) k Hne) as Hf.
    destruct (execute_finish cfg http_post id task r
                (advance waited (worker_poll json_loads json_truthy
                                   json_dumps_indent w))) as [r' w3].
    rewrite after_execute_table. simpl in Hf. rewrite Hf. exact Hpoll.
Qed.

Lemma round_touches_one_row_witness :
  db (worker_round defaults no_json_loads no_json_truthy no_json_dumps dead_endpoint
        quick_agent queued_world) !! "a"
  = Some (sample_task "a" "queued" None).
Proof.
  destruct (round_touches_one_row defaults no_json_loads no_json_truthy no_json_dumps
              dead_endpoint quick_agent Hangs "t" ["a"] queued_world "a"
              ltac:(discriminate)) as [_ Hround].
  rewrite Hround by reflexivity. reflexivity.
Defined.

(** ** The task in hand *)

Section Current.
Context (cfg : config).
Context {json : Type}.
Context (json_loads : string → option json).
Context (json_truthy : json → bool).
Context (json_dumps_indent : json → string).
Context (json_dumps : json → string).
Context (http_post : string → CallbackPayload → Z → option string).



End Current.


